(** * student-dashboard: the completion-date predictor of [api.py]

    A shallow embedding of [predict_completion] (the handler of
    [POST /predict]) together with the library routines it calls:
    [datetime.strptime], [min], [datetime - datetime], [numpy.cumsum],
    [sklearn.linear_model.LinearRegression.fit], [int], [timedelta],
    [datetime + timedelta], [strftime] and [round].

    Dates and day counts are integers ([Z]) and are modelled after
    CPython's [datetime].

    Numbers.  The handler is given twice.  [Code] is the handler over IEEE
    754 binary64 ([B64]): sums, differences and quotients round, overflow
    to infinity and propagate NaN as Python's [float] does, and the
    least-squares solver of scikit-learn is a parameter.  [Api] is the
    handler over exact rationals ([Q]) with the fit solved exactly; only
    statements that do not depend on rounding are made of it: which branch
    is taken, which exception a date raises, the days since start, and
    that the day count grows with the remaining hours.

    Exceptions.  A Python call that may raise returns a [Result]; the
    comprehension in the handler is a monadic map that stops at the first
    exception. *)

From Stdlib Require Import ZArith QArith Qround List String Ascii Bool Lia Lqa.
From Stdlib Require Import Permutation SpecFloat.
Import ListNotations.

Local Open Scope Z_scope.

(** ** Exceptions and results *)

Inductive Exn : Type :=
| ValueError
| OverflowError
| IndexError.

Inductive Result (A : Type) : Type :=
| Returned (a : A)
| Raised (e : Exn).

Arguments Returned {A} a.
Arguments Raised {A} e.

Definition bind {A B : Type} (r : Result A) (k : A -> Result B) : Result B :=
  match r with
  | Returned a => k a
  | Raised e => Raised e
  end.

Notation "x <- r ;; k" := (bind r (fun x => k))
  (at level 61, r at next level, right associativity).

(** [[f(v) for v in l]]: elements are evaluated left to right and the first
    exception aborts the comprehension. *)
Fixpoint comprehension {A B : Type} (f : A -> Result B) (l : list A)
  : Result (list B) :=
  match l with
  | [] => Returned []
  | a :: l' =>
      b <- f a ;;
      bs <- comprehension f l' ;;
      Returned (b :: bs)
  end.

(** ** The calendar of Python's [datetime] module

    Follows the pure-Python reference implementation ([Lib/_pydatetime.py]):
    the proleptic Gregorian calendar, years 1 to 9999. *)

Module Datetime.

Definition MINYEAR : Z := 1.
Definition MAXYEAR : Z := 9999.
Definition _MAXORDINAL : Z := 3652059.

Definition _is_leap (year : Z) : bool :=
  (year mod 4 =? 0) && (negb (year mod 100 =? 0) || (year mod 400 =? 0)).

(** [_DAYS_IN_MONTH[month]], index 0 is the placeholder -1. *)
Definition _DAYS_IN_MONTH : list Z :=
  [-1; 31; 28; 31; 30; 31; 30; 31; 31; 30; 31; 30; 31].

(** [_DAYS_BEFORE_MONTH[month]]: days before the first of the month in a
    common year. *)
Definition _DAYS_BEFORE_MONTH : list Z :=
  [-1; 0; 31; 59; 90; 120; 151; 181; 212; 243; 273; 304; 334].

Definition tbl (t : list Z) (i : Z) : Z := nth (Z.to_nat i) t (-1).

Definition _days_before_year (year : Z) : Z :=
  let y := year - 1 in
  y * 365 + y / 4 - y / 100 + y / 400.

Definition _days_in_month (year month : Z) : Z :=
  if (month =? 2) && _is_leap year then 29 else tbl _DAYS_IN_MONTH month.

Definition _days_before_month (year month : Z) : Z :=
  tbl _DAYS_BEFORE_MONTH month
  + (if (2 <? month) && _is_leap year then 1 else 0).

Definition _ymd2ord (year month day : Z) : Z :=
  _days_before_year year + _days_before_month year month + day.

Definition _DI400Y : Z := 146097.
Definition _DI100Y : Z := 36524.
Definition _DI4Y : Z := 1461.

Definition _ord2ymd (n0 : Z) : Z * Z * Z :=
  let n := n0 - 1 in
  let n400 := n / _DI400Y in
  let n := n mod _DI400Y in
  let year := n400 * 400 + 1 in
  let n100 := n / _DI100Y in
  let n := n mod _DI100Y in
  let n4 := n / _DI4Y in
  let n := n mod _DI4Y in
  let n1 := n / 365 in
  let n := n mod 365 in
  let year := year + n100 * 100 + n4 * 4 + n1 in
  if (n1 =? 4) || (n100 =? 4) then (year - 1, 12, 31)
  else
    let leapyear := (n1 =? 3) && (negb (n4 =? 24) || (n100 =? 3)) in
    let month := Z.shiftr (n + 50) 5 in
    let preceding :=
      tbl _DAYS_BEFORE_MONTH month
      + (if (2 <? month) && leapyear then 1 else 0) in
    if n <? preceding then
      let month := month - 1 in
      let preceding :=
        preceding
        - (tbl _DAYS_IN_MONTH month
           + (if (month =? 2) && leapyear then 1 else 0)) in
      (year, month, n - preceding + 1)
    else (year, month, n - preceding + 1).

(** A [datetime] whose time of day is midnight, which is all [strptime]
    with the format [%Y-%m-%d] produces. *)
Record datetime : Type := mk_datetime { year : Z; month : Z; day : Z }.

(** The constructor's range checks ([_check_date_fields]). *)
Definition new_datetime (y m d : Z) : Result datetime :=
  if negb ((MINYEAR <=? y) && (y <=? MAXYEAR)) then Raised ValueError
  else if negb ((1 <=? m) && (m <=? 12)) then Raised ValueError
  else if negb ((1 <=? d) && (d <=? _days_in_month y m)) then Raised ValueError
  else Returned (mk_datetime y m d).

Definition toordinal (d : datetime) : Z := _ymd2ord (year d) (month d) (day d).

Definition fromordinal (n : Z) : datetime :=
  let '(y, m, d) := _ord2ymd n in mk_datetime y m d.

(** [(a - b).days] for two midnights. *)
Definition sub_days (a b : datetime) : Z := toordinal a - toordinal b.

(** [timedelta(days=n)]: the constructor refuses more than 999999999 days
    in either direction. *)
Definition timedelta_days (n : Z) : Result Z :=
  if Z.abs n >? 999999999 then Raised OverflowError else Returned n.

(** [d + timedelta(days=n)] for a delta already built. *)
Definition add_timedelta (d : datetime) (n : Z) : Result datetime :=
  let o := toordinal d + n in
  if (0 <? o) && (o <=? _MAXORDINAL) then Returned (fromordinal o)
  else Raised OverflowError.

(** Dates compare as their (year, month, day) triples. *)
Definition lt (a b : datetime) : bool :=
  (year a <? year b)
  || ((year a =? year b)
      && ((month a <? month b)
          || ((month a =? month b) && (day a <? day b)))).

(** [min(l)]: the first smallest element; an empty argument raises
    [ValueError]. *)
Definition min (l : list datetime) : Result datetime :=
  match l with
  | [] => Raised ValueError
  | d :: l' => Returned (fold_left (fun m x => if lt x m then x else m) l' d)
  end.

(** *** [strptime(s, "%Y-%m-%d")]

    [_strptime] compiles the format to the regular expression
    [(?P<Y>\d\d\d\d)-(?P<m>1[0-2]|0[1-9]|[1-9])-(?P<d>3[0-1]|[1-2]\d|0[1-9]|[1-9]| [1-9])],
    matches it at the start of the string, and raises [ValueError] when it
    does not match or when characters remain after the match.  The matcher
    below returns the matches in the order the backtracking engine tries
    them; the first is the one [re.match] returns.  Characters are the code
    points 0 to 255. *)

Definition is_digit (c : ascii) : bool :=
  let n := nat_of_ascii c in (48 <=? n)%nat && (n <=? 57)%nat.

Definition in_range (lo hi : nat) (c : ascii) : bool :=
  let n := nat_of_ascii c in (lo <=? n)%nat && (n <=? hi)%nat.

Definition digit (c : ascii) : Z := Z.of_nat (nat_of_ascii c) - 48.

(** One alternative of a group: a list of character classes matched in
    sequence; the value is the decimal reading of the digits matched. *)
Fixpoint match_classes (cs : list (ascii -> bool)) (acc : Z) (s : string)
  : option (Z * string) :=
  match cs with
  | [] => Some (acc, s)
  | c :: cs' =>
      match s with
      | String a s' =>
          if c a
          then match_classes cs'
                 (if is_digit a then 10 * acc + digit a else acc) s'
          else None
      | EmptyString => None
      end
  end.

Definition is_char (n : nat) (c : ascii) : bool := (nat_of_ascii c =? n)%nat.

Definition re_Y : list (list (ascii -> bool)) :=
  [[is_digit; is_digit; is_digit; is_digit]].

Definition re_m : list (list (ascii -> bool)) :=
  [[is_char 49; in_range 48 50];
   [is_char 48; in_range 49 57];
   [in_range 49 57]].

Definition re_d : list (list (ascii -> bool)) :=
  [[is_char 51; in_range 48 49];
   [in_range 49 50; is_digit];
   [is_char 48; in_range 49 57];
   [in_range 49 57];
   [is_char 32; in_range 49 57]].

(** All ways a group matches a prefix of [s], in the engine's order. *)
Definition match_group (alts : list (list (ascii -> bool))) (s : string)
  : list (Z * string) :=
  flat_map (fun cs => match match_classes cs 0 s with
                      | Some r => [r]
                      | None => []
                      end) alts.

Definition match_dash (s : string) : list string :=
  match s with
  | String a s' => if is_char 45 a then [s'] else []
  | EmptyString => []
  end.

Definition regex_matches (s : string) : list (Z * Z * Z * string) :=
  flat_map (fun '(y, s1) =>
    flat_map (fun s2 =>
      flat_map (fun '(m, s3) =>
        flat_map (fun s4 =>
          List.map (fun '(d, s5) => (y, m, d, s5)) (match_group re_d s4))
          (match_dash s3))
        (match_group re_m s2))
      (match_dash s1))
    (match_group re_Y s).

Definition strptime (s : string) : Result datetime :=
  match regex_matches s with
  | [] => Raised ValueError
  | (y, m, d, rest) :: _ =>
      match rest with
      | EmptyString => new_datetime y m d
      | String _ _ => Raised ValueError
      end
  end.

Fixpoint pad (width : nat) (n : Z) : string :=
  match width with
  | O => EmptyString
  | S w =>
      (pad w (n / 10)
       ++ String (ascii_of_nat (Z.to_nat (48 + n mod 10))) EmptyString)%string
  end.

(** A year from 0 to 9999 in decimal, with as many digits as it has. *)
Definition decimal (n : Z) : string :=
  if n <? 10 then pad 1 n
  else if n <? 100 then pad 2 n
  else if n <? 1000 then pad 3 n
  else pad 4 n.

(** [d.strftime("%Y-%m-%d")], as CPython 3.11 gives it through the C
    library of Linux: [%Y] is the year in decimal and is not padded,
    [%m] and [%d] have two digits. *)
Definition strftime (d : datetime) : string :=
  (decimal (year d) ++ "-" ++ pad 2 (month d) ++ "-" ++ pad 2 (day d))%string.

End Datetime.

(** ** Exact arithmetic on rationals *)

Local Open Scope Q_scope.

Definition Qsum (l : list Q) : Q := fold_right Qplus 0 l.

(** [int(q)]: truncation toward zero. *)
Definition int (q : Q) : Z := Z.quot (Qnum q) (Zpos (Qden q)).

(** Rounding to the nearest integer, ties to the even one. *)
Definition round_half_even (q : Q) : Z :=
  let f := Qfloor q in
  match Qcompare (q - inject_Z f) (1 # 2) with
  | Lt => f
  | Gt => (f + 1)%Z
  | Eq => if Z.even f then f else (f + 1)%Z
  end.

(** [round(q, 2)]. *)
Definition round2 (q : Q) : Q := Qred (Qmake (round_half_even (q * 100)) 100).

(** ** numpy *)

Module Numpy.

Fixpoint cumsum_from (acc : Q) (l : list Q) : list Q :=
  match l with
  | [] => []
  | h :: t => (acc + h) :: cumsum_from (acc + h) t
  end.

(** [np.cumsum(l)]: the running sums, the first being the first element. *)
Definition cumsum (l : list Q) : list Q :=
  match l with
  | [] => []
  | h :: t => h :: cumsum_from h t
  end.

(** [np.average(l)] without weights. *)
Definition average (l : list Q) : Q := Qsum l / inject_Z (Z.of_nat (List.length l)).

(** [a[-1]]. *)
Definition last (l : list Q) : Result Q :=
  match rev l with
  | [] => Raised IndexError
  | v :: _ => Returned v
  end.

End Numpy.

(** ** scikit-learn's [LinearRegression] for one feature

    [fit] (with the default [fit_intercept=True]) centres [X] and [y] on
    their means, solves the centred least-squares problem with
    [scipy.linalg.lstsq], which returns the solution of minimum norm, and
    sets [intercept_ = y_offset - X_offset * coef_].  For a single column
    the minimum-norm solution is [0] when the centred column is zero and
    [<Xc, yc> / <Xc, Xc>] otherwise. *)

Module Sklearn.

Record LinearRegression : Type :=
  mk_model { coef_ : list Q; intercept_ : Q }.

Definition center (l : list Q) : list Q :=
  let offset := Numpy.average l in List.map (fun v => v - offset) l.

Fixpoint dot (a b : list Q) : Q :=
  match a, b with
  | x :: a', y :: b' => x * y + dot a' b'
  | _, _ => 0
  end.

Definition lstsq (Xc yc : list Q) : Q :=
  if Qeq_bool (dot Xc Xc) 0 then 0 else dot Xc yc / dot Xc Xc.

Definition fit (X y : list Q) : LinearRegression :=
  let X_offset := Numpy.average X in
  let y_offset := Numpy.average y in
  let coef := lstsq (center X) (center y) in
  mk_model [coef] (y_offset - X_offset * coef).

End Sklearn.

(** ** The handler of [POST /predict] *)

Module Api.

Import Datetime.

Record StudySession : Type := mk_session { date : string; hours : Q }.

Record PredictionRequest : Type :=
  mk_request { sessions : list StudySession; remaining_hours : Q }.

(** The three dictionaries the handler returns. *)
Inductive Outcome : Type :=
| insufficient_data
| stalled
| success (predicted_date : string) (velocity_hours_per_day : Q).

Definition status (o : Outcome) : string :=
  match o with
  | insufficient_data => "insufficient_data"%string
  | stalled => "stalled"%string
  | success _ _ => "success"%string
  end.

Definition message (o : Outcome) : option string :=
  match o with
  | insufficient_data => Some "Need at least 3 study sessions to predict."%string
  | stalled => Some "Velocity is zero or negative."%string
  | success _ _ => None
  end.

Definition predict_completion (data : PredictionRequest) : Result Outcome :=
  if (List.length (sessions data) <? 3)%nat then Returned insufficient_data
  else
    dates <- comprehension (fun s => strptime (date s)) (sessions data) ;;
    start_date <- Datetime.min dates ;;
    let days_since_start :=
      List.map (fun d => inject_Z (sub_days d start_date)) dates in
    let hours := List.map hours (sessions data) in
    let cumulative_hours := Numpy.cumsum hours in
    let model := Sklearn.fit days_since_start cumulative_hours in
    current_total <- Numpy.last cumulative_hours ;;
    let target_total := current_total + remaining_hours data in
    let velocity := nth 0 (Sklearn.coef_ model) 0 in
    if Qle_bool velocity 0 then Returned stalled
    else
      let days_needed := (target_total - Sklearn.intercept_ model) / velocity in
      delta <- timedelta_days (int days_needed) ;;
      finish_date <- add_timedelta start_date delta ;;
      Returned (success (strftime finish_date) (round2 velocity)).

(** *** The transport around the handler

    FastAPI answers 200 with the dictionary the handler returns.  An
    exception that is not an [HTTPException] is not handled: the server
    answers 500 with the fixed body [Internal Server Error].  The handler
    raises no [HTTPException], and the request model declares only the
    field types ([str], [float], [float]), so every [PredictionRequest]
    reaches the handler. *)

Inductive Response : Type :=
| Http (code : Z) (body : Outcome)
| HttpError (code : Z) (detail : string).

Definition code_of (r : Response) : Z :=
  match r with
  | Http c _ => c
  | HttpError c _ => c
  end.

Definition post_predict (data : PredictionRequest) : Response :=
  match predict_completion data with
  | Returned o => Http 200 o
  | Raised _ => HttpError 500 "Internal Server Error"%string
  end.

(** *** The local variables of the handler

    [locals] computes the values the handler binds on its way to the test
    of the velocity, and [conclude] is the rest of the body;
    [predict_completion_locals] below shows that the handler is their
    composition. *)

Record Locals : Type := mk_locals {
  start_date : datetime;
  days_since_start : list Q;
  cumulative_hours : list Q;
  model : Sklearn.LinearRegression;
  current_total : Q;
  target_total : Q;
  velocity : Q;
  days_needed : Q
}.

Definition locals (data : PredictionRequest) : Result Locals :=
  dates <- comprehension (fun s => strptime (date s)) (sessions data) ;;
  start <- Datetime.min dates ;;
  let xs := List.map (fun d => inject_Z (sub_days d start)) dates in
  let ys := Numpy.cumsum (List.map hours (sessions data)) in
  let m := Sklearn.fit xs ys in
  total <- Numpy.last ys ;;
  let target := total + remaining_hours data in
  let v := nth 0 (Sklearn.coef_ m) 0 in
  Returned (mk_locals start xs ys m total target v
              ((target - Sklearn.intercept_ m) / v)).

Definition conclude (l : Locals) : Result Outcome :=
  if Qle_bool (velocity l) 0 then Returned stalled
  else
    delta <- timedelta_days (int (days_needed l)) ;;
    finish_date <- add_timedelta (start_date l) delta ;;
    Returned (success (strftime finish_date) (round2 (velocity l))).

End Api.

(** ** IEEE 754 binary64

    Python's [float] and numpy's [float64], with the operations of
    [SpecFloat] at precision 53 and maximal exponent 1024: every operation
    is rounded to the nearest float, ties to even, with signed zeros,
    infinities and NaN. *)

Local Open Scope Z_scope.

Module B64.

Definition prec : Z := 53.
Definition emax : Z := 1024.

Definition float : Type := spec_float.

Definition add : float -> float -> float := SFadd prec emax.
Definition sub : float -> float -> float := SFsub prec emax.
Definition mul : float -> float -> float := SFmul prec emax.
Definition div : float -> float -> float := SFdiv prec emax.

(** [a <= b] and [a < b]; false when an operand is NaN. *)
Definition leb : float -> float -> bool := SFleb.
Definition ltb : float -> float -> bool := SFltb.

Definition zero : float := S754_zero false.

(** The float nearest to an integer. *)
Definition of_Z (z : Z) : float := binary_normalize prec emax z 0 false.

(** The float of a decimal literal [n/d] with [n] and [d] below [2^53]. *)
Definition of_ratio (n d : Z) : float := div (of_Z n) (of_Z d).

(** [math.isfinite]. *)
Definition is_finite (f : float) : bool :=
  match f with
  | S754_zero _ | S754_finite _ _ _ => true
  | S754_infinity _ | S754_nan => false
  end.

(** The signed mantissa of a finite float. *)
Definition mantissa (s : bool) (m : positive) : Z :=
  if s then Zneg m else Zpos m.

(** The number a finite float stands for. *)
Definition value (f : float) : Q :=
  match f with
  | S754_finite s m (Zneg k) => Qmake (mantissa s m) (Pos.pow 2 k)
  | S754_finite s m e => inject_Z (mantissa s m * 2 ^ e)
  | _ => 0%Q
  end.

(** [int(f)]: the integer part, toward zero; NaN raises [ValueError] and
    an infinity [OverflowError]. *)
Definition int (f : float) : Result Z :=
  match f with
  | S754_nan => Raised ValueError
  | S754_infinity _ => Raised OverflowError
  | S754_zero _ => Returned 0
  | S754_finite s m (Zneg k) =>
      Returned (Z.quot (mantissa s m) (Zpos (Pos.pow 2 k)))
  | S754_finite s m e => Returned (mantissa s m * 2 ^ e)
  end.

(** [np.rint]: the nearest integer, ties to even, as a float. *)
Definition rint (f : float) : float :=
  match f with
  | S754_finite s m (Zneg k) =>
      let q := Zpos m / Zpos (Pos.pow 2 k) in
      let r := Zpos m mod Zpos (Pos.pow 2 k) in
      let n :=
        if 2 * r <? Zpos (Pos.pow 2 k) then q
        else if Zpos (Pos.pow 2 k) <? 2 * r then q + 1
        else if Z.even q then q else q + 1 in
      if n =? 0 then S754_zero s
      else binary_normalize prec emax (if s then - n else n) 0 false
  | _ => f
  end.

(** [round(f, 2)] for a numpy [float64]: [np.round] multiplies by [10**2],
    takes [rint], and divides by [10**2], each in float64. *)
Definition round2 (f : float) : float :=
  div (rint (mul f (of_Z 100))) (of_Z 100).

End B64.

(** ** The handler over binary64

    [predict_completion] once more, with the arithmetic the code performs.
    The least-squares solver inside [LinearRegression.fit] (centring,
    LAPACK's SVD-based [gelsd], the intercept) is a parameter [lstsq]: what
    it returns for finite input, be it a coefficient with an intercept or
    an exception, is left open.  Of [fit] itself the validation of its
    input is modelled: a target that contains NaN or an infinity is
    refused with [ValueError] before anything is solved. *)

Module Code.

Import Datetime.

Record StudySession : Type := mk_session { date : string; hours : B64.float }.

Record PredictionRequest : Type :=
  mk_request { sessions : list StudySession; remaining_hours : B64.float }.

Inductive Outcome : Type :=
| insufficient_data
| stalled
| success (predicted_date : string) (velocity_hours_per_day : B64.float).

Fixpoint cumsum_from (acc : B64.float) (l : list B64.float) : list B64.float :=
  match l with
  | [] => []
  | h :: t => B64.add acc h :: cumsum_from (B64.add acc h) t
  end.

(** [np.cumsum(l)]: the running sums, added from left to right in
    float64; the first is the first element. *)
Definition cumsum (l : list B64.float) : list B64.float :=
  match l with
  | [] => []
  | h :: t => h :: cumsum_from h t
  end.

(** [a[-1]]. *)
Definition last (l : list B64.float) : Result B64.float :=
  match rev l with
  | [] => Raised IndexError
  | v :: _ => Returned v
  end.

(** What the solver is given and what it returns: the days, the
    cumulative hours, and [(coef_[0], intercept_)] or an exception. *)
Definition solver : Type :=
  list Z -> list B64.float -> Result (B64.float * B64.float).

(** The local variables of the handler once the model is fitted, and the
    rest of its body. *)
Record Locals : Type := mk_locals {
  start_date : datetime;
  days_since_start : list Z;
  cumulative_hours : list B64.float;
  velocity : B64.float;
  intercept : B64.float;
  current_total : B64.float;
  target_total : B64.float;
  days_needed : B64.float
}.

Definition conclude (l : Locals) : Result Outcome :=
  if B64.leb (velocity l) B64.zero then Returned stalled
  else
    n <- B64.int (days_needed l) ;;
    delta <- timedelta_days n ;;
    finish_date <- add_timedelta (start_date l) delta ;;
    Returned (success (strftime finish_date) (B64.round2 (velocity l))).

(** The handler up to the fit: the start date, the days since start and
    the cumulative hours. *)
Definition prepare (data : PredictionRequest)
  : Result (datetime * list Z * list B64.float) :=
  dates <- comprehension (fun s => strptime (date s)) (sessions data) ;;
  start <- Datetime.min dates ;;
  Returned (start,
            List.map (fun d => sub_days d start) dates,
            cumsum (List.map hours (sessions data))).

(** The handler from the fitted model to the test of the velocity. *)
Definition after_fit (p : datetime * list Z * list B64.float)
  (model : B64.float * B64.float) (remaining : B64.float) : Result Locals :=
  let '(start, xs, ys) := p in
  total <- last ys ;;
  let target := B64.add total remaining in
  Returned (mk_locals start xs ys (fst model) (snd model) total target
              (B64.div (B64.sub target (snd model)) (fst model))).

Inductive Response : Type :=
| Http (code : Z) (body : Outcome)
| HttpError (code : Z) (detail : string).

Definition code_of (r : Response) : Z :=
  match r with
  | Http c _ => c
  | HttpError c _ => c
  end.

(** The handler after the fit. *)
Definition finish (p : datetime * list Z * list B64.float)
  (model : B64.float * B64.float) (remaining : B64.float) : Result Outcome :=
  l <- after_fit p model remaining ;;
  conclude l.

(** A response with a status 4xx. *)
Definition client_error (r : Response) : Prop := 400 <= code_of r < 500.

Section Fit.

Variable lstsq : solver.

(** [LinearRegression().fit(X, y)], read as [(coef_[0], intercept_)]. *)
Definition fit (X : list Z) (y : list B64.float)
  : Result (B64.float * B64.float) :=
  if forallb B64.is_finite y then lstsq X y else Raised ValueError.

Definition predict_completion (data : PredictionRequest) : Result Outcome :=
  if (List.length (sessions data) <? 3)%nat then Returned insufficient_data
  else
    dates <- comprehension (fun s => strptime (date s)) (sessions data) ;;
    start_date <- Datetime.min dates ;;
    let days_since_start := List.map (fun d => sub_days d start_date) dates in
    let hours := List.map hours (sessions data) in
    let cumulative_hours := cumsum hours in
    model <- fit days_since_start cumulative_hours ;;
    current_total <- last cumulative_hours ;;
    let target_total := B64.add current_total (remaining_hours data) in
    let velocity := fst model in
    if B64.leb velocity B64.zero then Returned stalled
    else
      let days_needed := B64.div (B64.sub target_total (snd model)) velocity in
      n <- B64.int days_needed ;;
      delta <- timedelta_days n ;;
      finish_date <- add_timedelta start_date delta ;;
      Returned (success (strftime finish_date) (B64.round2 velocity)).

Definition locals (data : PredictionRequest) : Result Locals :=
  p <- prepare data ;;
  model <- fit (snd (fst p)) (snd p) ;;
  after_fit p model (remaining_hours data).

(** The transport: 200 with the dictionary; 500 for an exception of the
    handler, and for a dictionary that holds a float JSON cannot write. *)
Definition post_predict (data : PredictionRequest) : Response :=
  match predict_completion data with
  | Returned (success d v) =>
      if B64.is_finite v then Http 200 (success d v)
      else HttpError 500 "Internal Server Error"
  | Returned o => Http 200 o
  | Raised _ => HttpError 500 "Internal Server Error"
  end.

End Fit.

End Code.

(** * Predicates and requests the statements use *)

Import Datetime Api.

Local Open Scope Z_scope.

(** The dates the constructor of [datetime] accepts. *)
Definition valid_date (d : datetime) : Prop :=
  (MINYEAR <= year d <= MAXYEAR)
  /\ (1 <= month d <= 12)
  /\ (1 <= day d <= _days_in_month (year d) (month d)).

(** Number of days of a year. *)
Definition year_length (y : Z) : Z := if _is_leap y then 366 else 365.

(** [_ord2ymd o] is a month and a day that exist, with ordinal [o]. *)
Definition roundtrip_ok (o : Z) : bool :=
  let '(y, m, d) := _ord2ymd o in
  (_ymd2ord y m d =? o)
  && (1 <=? m) && (m <=? 12) && (1 <=? d) && (d <=? _days_in_month y m).

(** [roundtrip_ok] on the [len] ordinals from [lo], by halving. *)
Fixpoint check_span (fuel : nat) (lo len : Z) : bool :=
  match fuel with
  | O => (len <=? 0) || ((len =? 1) && roundtrip_ok lo)
  | S f =>
      if len <=? 1 then (len <=? 0) || roundtrip_ok lo
      else
        let h := len / 2 in
        check_span f lo h && check_span f (lo + h) (len - h)
  end.

(** The ordinals of the dates 0001-01-01 to 9999-12-31. *)
Definition representable (o : Z) : Prop := 1 <= o <= _MAXORDINAL.

(** A response with a status 4xx. *)
Definition client_error (r : Response) : Prop :=
  400 <= code_of r < 500.

Local Open Scope Q_scope.

(** The worked example of the specification, and the values its handler
    binds. *)
Definition example_request : PredictionRequest :=
  mk_request [mk_session "2024-01-01" 2;
              mk_session "2024-01-02" 2;
              mk_session "2024-01-03" 2] 4.

Definition example_locals : Locals :=
  mk_locals (mk_datetime 2024 1 1) [0; 1; 2] [2; 4; 6]
    (Sklearn.mk_model [2125764 # 1062882] (19131876 # 9565938))
    6 10 (2125764 # 1062882) (81339706506528 # 20334926626632).


Definition bad_date_request : PredictionRequest :=
  mk_request [mk_session "2024-01-01" 2;
              mk_session "01/02/2024" 2;
              mk_session "2024-01-03" 2] 4.

(** *** Values for the binary64 handler *)

Local Open Scope Z_scope.

Definition f1 : B64.float := B64.of_Z 1.
Definition f2 : B64.float := B64.of_Z 2.
Definition f4 : B64.float := B64.of_Z 4.

(** A solver that answers slope 2 and intercept 2 whatever it is given. *)
Definition two_two : Code.solver := fun _ _ => Returned (f2, f2).

(** A solver that answers the line [2 x + 2] one unit in the last place
    off: slope [1.9999999999999996], intercept [2.0000000000000004]. *)
Definition near_two_two : Code.solver :=
  fun _ _ => Returned (S754_finite false 9007199254740990 (-52),
                       S754_finite false 4503599627370497 (-51)).

(** A solver that answers slope [0.001] and intercept 1. *)
Definition slow_line : Code.solver :=
  fun _ _ => Returned (B64.of_ratio 1 1000, f1).

(** A solver that answers slope [1.5] and intercept [25/6], the line
    through (0, 5), (1, 4) and (2, 8). *)
Definition dented_line : Code.solver :=
  fun _ _ => Returned (B64.of_ratio 3 2, B64.of_ratio 25 6).


(** The worked example. *)
Definition code_example : Code.PredictionRequest :=
  Code.mk_request [Code.mk_session "2024-01-01" f2;
                   Code.mk_session "2024-01-02" f2;
                   Code.mk_session "2024-01-03" f2] f4.

(** Three sessions at the end of the calendar. *)
Definition late_request : Code.PredictionRequest :=
  Code.mk_request [Code.mk_session "9999-12-29" f2;
                   Code.mk_session "9999-12-30" f2;
                   Code.mk_session "9999-12-31" f2] f4.

(** The worked example with NaN for the remaining hours. *)
Definition nan_request : Code.PredictionRequest :=
  Code.mk_request (Code.sessions code_example) S754_nan.

(** Slow progress and a thousand hours less than nothing to go. *)
Definition behind_slow_request : Code.PredictionRequest :=
  Code.mk_request [Code.mk_session "2024-01-01" f1;
                   Code.mk_session "2024-01-02" (B64.of_ratio 1 1000);
                   Code.mk_session "2024-01-03" (B64.of_ratio 1 1000)]
    (B64.of_Z (-1000)).

(** The worked example with one hour less than nothing to go. *)
Definition code_behind_request : Code.PredictionRequest :=
  Code.mk_request (Code.sessions code_example) (B64.of_Z (-1)).

(** A session with negative hours. *)
Definition code_negative_hours_request : Code.PredictionRequest :=
  Code.mk_request [Code.mk_session "2024-01-01" (B64.of_Z 5);
                   Code.mk_session "2024-01-02" (B64.of_Z (-1));
                   Code.mk_session "2024-01-03" f4] f2.


(** The worked example with minus infinity for the remaining hours. *)
Definition minus_infinity_request : Code.PredictionRequest :=
  Code.mk_request (Code.sessions code_example) (S754_infinity true).

(** Three sessions of [1e16] hours and one hour less than nothing to go. *)
Definition absorbed_request : Code.PredictionRequest :=
  Code.mk_request [Code.mk_session "2024-01-01" (B64.of_Z (10 ^ 16));
                   Code.mk_session "2024-01-02" (B64.of_Z (10 ^ 16));
                   Code.mk_session "2024-01-03" (B64.of_Z (10 ^ 16))]
    (B64.of_Z (-1)).


(** The values the handler binds on the worked example when the solver
    answers slope 2 and intercept 2. *)
Definition code_example_locals : Code.Locals :=
  Code.mk_locals (mk_datetime 2024 1 1) [0; 1; 2]
    [f2; B64.of_Z 4; B64.of_Z 6] f2 f2 (B64.of_Z 6) (B64.of_Z 10) f4.

(** The same with one hour less than nothing to go. *)
Definition code_behind_locals : Code.Locals :=
  Code.mk_locals (mk_datetime 2024 1 1) [0; 1; 2]
    [f2; B64.of_Z 4; B64.of_Z 6] f2 f2 (B64.of_Z 6) (B64.of_Z 5)
    (B64.of_ratio 3 2).


Local Open Scope Q_scope.

(** * Properties *)

(** ** The handler in terms of its local variables *)

Lemma predict_completion_locals (data : PredictionRequest) :
  predict_completion data =
  if (List.length (sessions data) <? 3)%nat then Returned insufficient_data
  else l <- locals data ;; conclude l.
Proof.
  unfold predict_completion, locals, conclude.
  destruct (List.length (sessions data) <? 3)%nat; [reflexivity|].
  destruct (comprehension _ (sessions data)) as [dates|e]; [|reflexivity].
  cbn [bind].
  destruct (Datetime.min dates) as [start|e]; [|reflexivity].
  cbn [bind].
  destruct (Numpy.last _) as [total|e]; reflexivity.
Qed.

Lemma comprehension_length {A B : Type} (f : A -> Result B) (l : list A) bs :
  comprehension f l = Returned bs -> List.length bs = List.length l.
Proof.
  revert bs; induction l as [|a l IH]; intros bs H; cbn in H.
  - injection H as <-. reflexivity.
  - destruct (f a) as [b|e]; cbn in H; [|discriminate].
    destruct (comprehension f l) as [bs'|e]; cbn in H; [|discriminate].
    injection H as <-. cbn. f_equal. now apply IH.
Qed.

Lemma comprehension_value_error {A B : Type} (f : A -> Result B) (l : list A) :
  (forall a, In a l -> f a = Raised ValueError \/ exists b, f a = Returned b) ->
  (exists a, In a l /\ f a = Raised ValueError) ->
  comprehension f l = Raised ValueError.
Proof.
  induction l as [|a l IH]; intros Hall [x [Hx Hfx]]; [destruct Hx|].
  cbn. destruct (Hall a (or_introl eq_refl)) as [->|[b Hb]]; [reflexivity|].
  rewrite Hb. cbn. destruct Hx as [->|Hx]; [congruence|].
  rewrite IH; [reflexivity| |now exists x].
  intros y Hy. apply Hall. now right.
Qed.

(** [strptime] raises nothing but [ValueError]. *)
Lemma strptime_cases (s : string) :
  strptime s = Raised ValueError \/ exists d, strptime s = Returned d.
Proof.
  unfold strptime.
  destruct (regex_matches s) as [|[[[y m] d] rest] ?]; [now left|].
  destruct rest; [|now left].
  unfold new_datetime.
  repeat match goal with |- context [if ?b then _ else _] => destruct b end;
    eauto.
Qed.

(** ** Fewer than three sessions *)

(** C3: a request with fewer than three sessions gets exactly the
    [insufficient_data] dictionary, whatever its sessions (their dates need
    not even be dates) and whatever its remaining hours: no date is parsed
    and nothing is fitted. *)
Theorem fewer_than_three_insufficient (data : PredictionRequest) :
  (List.length (sessions data) < 3)%nat ->
  predict_completion data = Returned insufficient_data
  /\ post_predict data = Http 200 insufficient_data.
Proof.
  intros H. unfold post_predict, predict_completion.
  apply Nat.ltb_lt in H. rewrite H. split; reflexivity.
Qed.

Lemma fewer_than_three_insufficient_witness :
  let data := mk_request [mk_session "not a date" (-7); mk_session "" 1] (-3) in
  strptime "not a date" = Raised ValueError
  /\ predict_completion data = Returned insufficient_data
  /\ post_predict data = Http 200 insufficient_data.
Proof.
  split; [reflexivity|].
  apply (fewer_than_three_insufficient
           (mk_request [mk_session "not a date" (-7); mk_session "" 1] (-3))).
  simpl. lia.
Defined.

(** ** What [locals] binds *)

Lemma locals_inv (data : PredictionRequest) (l : Locals) :
  locals data = Returned l ->
  exists dates,
    comprehension (fun s => strptime (date s)) (sessions data) = Returned dates
    /\ Datetime.min dates = Returned (start_date l)
    /\ days_since_start l
       = List.map (fun d => inject_Z (sub_days d (start_date l))) dates
    /\ cumulative_hours l = Numpy.cumsum (List.map hours (sessions data))
    /\ model l = Sklearn.fit (days_since_start l) (cumulative_hours l)
    /\ Numpy.last (cumulative_hours l) = Returned (current_total l)
    /\ target_total l = current_total l + remaining_hours data
    /\ Sklearn.coef_ (model l) = [velocity l]
    /\ days_needed l
       = (target_total l - Sklearn.intercept_ (model l)) / velocity l.
Proof.
  unfold locals. intros H.
  destruct (comprehension _ (sessions data)) as [dates|e] eqn:Hdates;
    [|discriminate].
  cbn [bind] in H.
  destruct (Datetime.min dates) as [start|e] eqn:Hmin; [|discriminate].
  cbn [bind] in H.
  destruct (Numpy.last _) as [total|e] eqn:Hlast; [|discriminate].
  cbn [bind] in H. injection H as <-.
  exists dates. cbn. repeat split; assumption || reflexivity.
Qed.

Lemma min_returns (l : list datetime) :
  l <> [] -> exists d, Datetime.min l = Returned d.
Proof. destruct l; [congruence|]. cbn. eauto. Qed.


(** ** Lists of one date *)




(** ** Facts about the calendar *)

Local Open Scope Z_scope.

Lemma new_datetime_valid (y m d : Z) (dt : datetime) :
  new_datetime y m d = Returned dt -> valid_date dt /\ dt = mk_datetime y m d.
Proof.
  unfold new_datetime, valid_date.
  destruct (Z.leb_spec MINYEAR y), (Z.leb_spec y MAXYEAR); cbn; try discriminate.
  destruct (Z.leb_spec 1 m), (Z.leb_spec m 12); cbn; try discriminate.
  destruct (Z.leb_spec 1 d), (Z.leb_spec d (_days_in_month y m)); cbn;
    try discriminate.
  intros E. injection E as <-. cbn. auto.
Qed.

Lemma strptime_valid (s : string) (d : datetime) :
  strptime s = Returned d -> valid_date d.
Proof.
  unfold strptime.
  destruct (regex_matches s) as [|[[[y m] d'] rest] ?]; [discriminate|].
  destruct rest; [|discriminate].
  intros H. now apply new_datetime_valid in H.
Qed.

Ltac month_cases m :=
  let H := fresh in
  assert (H : m = 1 \/ m = 2 \/ m = 3 \/ m = 4 \/ m = 5 \/ m = 6 \/ m = 7
              \/ m = 8 \/ m = 9 \/ m = 10 \/ m = 11 \/ m = 12) by lia;
  repeat (destruct H as [H|H]); subst m.

Ltac tables :=
  repeat match goal with
         | |- context [tbl ?t ?i] =>
             let v := eval vm_compute in (tbl t i) in change (tbl t i) with v
         end;
  cbn [Z.eqb Z.ltb Z.compare Pos.compare Pos.compare_cont Pos.eqb andb orb].

Lemma days_before_year_succ (y : Z) :
  _days_before_year (y + 1)
  = _days_before_year y + (if _is_leap y then 366 else 365).
Proof.
  unfold _days_before_year, _is_leap.
  replace (y + 1 - 1) with (y - 1 + 1) by lia.
  destruct (Z.eqb_spec (y mod 4) 0), (Z.eqb_spec (y mod 100) 0),
    (Z.eqb_spec (y mod 400) 0); cbn [negb andb orb];
    Z.div_mod_to_equations; lia.
Qed.

Lemma days_before_year_mono (y1 y2 : Z) :
  y1 <= y2 -> _days_before_year y1 <= _days_before_year y2.
Proof.
  unfold _days_before_year. intros H.
  Z.div_mod_to_equations. lia.
Qed.

(** The day of the year lies within the year. *)
Lemma day_of_year_range (y m d : Z) :
  1 <= m <= 12 -> 1 <= d <= _days_in_month y m ->
  1 <= _days_before_month y m + d <= year_length y.
Proof.
  intros Hm. unfold _days_before_month, _days_in_month, year_length.
  month_cases m; destruct (_is_leap y); tables; lia.
Qed.

Lemma day_of_year_bounds (d : datetime) :
  valid_date d ->
  1 <= _days_before_month (year d) (month d) + day d <= year_length (year d).
Proof. intros (_ & Hm & Hd). now apply day_of_year_range. Qed.

Lemma days_before_month_step (y m : Z) :
  1 <= m < 12 ->
  _days_before_month y (m + 1) = _days_before_month y m + _days_in_month y m.
Proof.
  intros Hm. unfold _days_before_month, _days_in_month.
  assert (Hm' : 1 <= m <= 12) by lia.
  month_cases m; try lia; destruct (_is_leap y); reflexivity.
Qed.

Lemma days_before_month_mono (y m1 m2 : Z) :
  1 <= m1 -> m1 <= m2 -> m2 <= 12 ->
  _days_before_month y m1 <= _days_before_month y m2.
Proof.
  intros H1 H12 H2. unfold _days_before_month.
  assert (Ha : 1 <= m1 <= 12) by lia. assert (Hb : 1 <= m2 <= 12) by lia.
  month_cases m1; month_cases m2; try lia; destruct (_is_leap y); tables; lia.
Qed.

(** The ordinal grows with the date. *)
Lemma toordinal_lt (a b : datetime) :
  valid_date a -> valid_date b -> lt a b = true -> toordinal a < toordinal b.
Proof.
  intros Ha Hb. pose proof (day_of_year_bounds a Ha) as Da.
  pose proof (day_of_year_bounds b Hb) as Db.
  destruct a as [ya ma da], b as [yb mb db].
  unfold lt, toordinal, _ymd2ord, valid_date, year_length in *.
  cbn [year month day] in *.
  intros H. apply orb_true_iff in H. destruct H as [H|H].
  - apply Z.ltb_lt in H.
    pose proof (days_before_year_succ ya) as Hs.
    pose proof (days_before_year_mono (ya + 1) yb ltac:(lia)). lia.
  - apply andb_true_iff in H. destruct H as [Hy H]. apply Z.eqb_eq in Hy. subst yb.
    apply orb_true_iff in H. destruct H as [H|H].
    + apply Z.ltb_lt in H.
      pose proof (days_before_month_step ya ma ltac:(lia)).
      pose proof (days_before_month_mono ya (ma + 1) mb ltac:(lia) ltac:(lia) ltac:(lia)).
      lia.
    + apply andb_true_iff in H. destruct H as [Hm H]. apply Z.eqb_eq in Hm.
      apply Z.ltb_lt in H. subst mb. lia.
Qed.

Lemma lt_total (a b : datetime) : lt a b = true \/ a = b \/ lt b a = true.
Proof.
  destruct a as [ya ma da], b as [yb mb db]. unfold lt. cbn [year month day].
  destruct (Z.lt_total ya yb) as [H|[H|H]].
  - left. apply orb_true_iff. left. now apply Z.ltb_lt.
  - subst yb. rewrite Z.eqb_refl, Z.ltb_irrefl. cbn [orb andb].
    destruct (Z.lt_total ma mb) as [H|[H|H]].
    + left. apply orb_true_iff. left. now apply Z.ltb_lt.
    + subst mb. rewrite Z.eqb_refl, Z.ltb_irrefl. cbn [orb andb].
      destruct (Z.lt_total da db) as [H|[H|H]].
      * left. now apply Z.ltb_lt.
      * right. left. now subst.
      * right. right. now apply Z.ltb_lt.
    + right. right. apply orb_true_iff. left. now apply Z.ltb_lt.
  - right. right. apply orb_true_iff. left. now apply Z.ltb_lt.
Qed.


Lemma toordinal_le (a b : datetime) :
  valid_date a -> valid_date b -> lt b a = false -> toordinal a <= toordinal b.
Proof.
  intros Ha Hb H. destruct (lt_total a b) as [H'|[H'|H']].
  - pose proof (toordinal_lt a b Ha Hb H'). lia.
  - subst. lia.
  - congruence.
Qed.

(** Valid dates have the ordinals 1 to 3652059. *)
Lemma toordinal_bounds (d : datetime) :
  valid_date d -> 1 <= toordinal d <= _MAXORDINAL.
Proof.
  intros Hd. pose proof (day_of_year_bounds d Hd) as D.
  destruct Hd as (Hy & _ & _). unfold MINYEAR, MAXYEAR in Hy.
  unfold toordinal, _ymd2ord, year_length, _MAXORDINAL in *.
  pose proof (days_before_year_mono 1 (year d) ltac:(lia)) as H1.
  pose proof (days_before_year_mono (year d + 1) 10000 ltac:(lia)) as H2.
  rewrite days_before_year_succ in H2.
  change (_days_before_year 1) with 0 in H1.
  change (_days_before_year 10000) with 3652059 in H2. lia.
Qed.

(** *** From ordinals back to dates *)

Lemma check_span_sound (fuel : nat) (lo len : Z) :
  check_span fuel lo len = true ->
  forall o, lo <= o < lo + len -> roundtrip_ok o = true.
Proof.
  revert lo len. induction fuel as [|f IH]; intros lo len; cbn [check_span].
  - intros H o Ho. apply orb_true_iff in H. destruct H as [H|H].
    + apply Z.leb_le in H. lia.
    + apply andb_true_iff in H. destruct H as [H1 H2].
      apply Z.eqb_eq in H1. now replace o with lo by lia.
  - destruct (Z.leb_spec len 1) as [Hlen|Hlen]; intros H o Ho.
    + apply orb_true_iff in H. destruct H as [H|H].
      * apply Z.leb_le in H. lia.
      * now replace o with lo by lia.
    + apply andb_true_iff in H. destruct H as [H1 H2].
      destruct (Z.lt_ge_cases o (lo + len / 2)).
      * apply (IH _ _ H1). lia.
      * apply (IH _ _ H2). lia.
Qed.

Lemma first_period_ok : check_span 18 1 146097 = true.
Proof. vm_compute. reflexivity. Qed.

Lemma roundtrip_first_period (o : Z) :
  1 <= o <= _DI400Y -> roundtrip_ok o = true.
Proof.
  intros H. apply (check_span_sound _ _ _ first_period_ok).
  unfold _DI400Y in H. lia.
Qed.

Lemma is_leap_period (y : Z) : _is_leap (y + 400) = _is_leap y.
Proof.
  unfold _is_leap.
  replace ((y + 400) mod 4) with (y mod 4)
    by (Z.div_mod_to_equations; lia).
  replace ((y + 400) mod 100) with (y mod 100)
    by (Z.div_mod_to_equations; lia).
  replace ((y + 400) mod 400) with (y mod 400)
    by (Z.div_mod_to_equations; lia).
  reflexivity.
Qed.

Lemma ymd2ord_period (y m d : Z) :
  _ymd2ord (y + 400) m d = _ymd2ord y m d + _DI400Y.
Proof.
  unfold _ymd2ord, _days_before_month. rewrite is_leap_period.
  unfold _days_before_year, _DI400Y. Z.div_mod_to_equations. lia.
Qed.

Lemma days_in_month_period (y m : Z) :
  _days_in_month (y + 400) m = _days_in_month y m.
Proof. unfold _days_in_month. now rewrite is_leap_period. Qed.

Lemma ord2ymd_period (o : Z) :
  _ord2ymd (o + _DI400Y)
  = let '(y, m, d) := _ord2ymd o in (y + 400, m, d).
Proof.
  unfold _ord2ymd.
  replace (o + _DI400Y - 1) with (o - 1 + 1 * _DI400Y) by lia.
  rewrite Z.div_add, Z.mod_add by (unfold _DI400Y; lia).
  set (n := (o - 1) mod _DI400Y).
  set (n400 := (o - 1) / _DI400Y).
  replace ((n400 + 1) * 400 + 1) with (n400 * 400 + 1 + 400) by lia.
  set (y0 := n400 * 400 + 1).
  replace (y0 + 400 + n / _DI100Y * 100 + n mod _DI100Y / _DI4Y * 4
           + (n mod _DI100Y) mod _DI4Y / 365)
    with (y0 + n / _DI100Y * 100 + n mod _DI100Y / _DI4Y * 4
          + (n mod _DI100Y) mod _DI4Y / 365 + 400) by lia.
  repeat match goal with
         | |- context [if ?b then _ else _] => destruct b
         end; f_equal; f_equal; lia.
Qed.

Lemma roundtrip_ok_period (o : Z) :
  roundtrip_ok o = true -> roundtrip_ok (o + _DI400Y) = true.
Proof.
  unfold roundtrip_ok. rewrite ord2ymd_period.
  destruct (_ord2ymd o) as [[y m] d].
  rewrite ymd2ord_period, days_in_month_period.
  intros H. repeat (apply andb_true_iff in H; destruct H as [H ?]).
  apply Z.eqb_eq in H. rewrite H, Z.eqb_refl.
  repeat (apply andb_true_iff; split); assumption || reflexivity.
Qed.

Lemma roundtrip_ok_all (o : Z) : 1 <= o -> roundtrip_ok o = true.
Proof.
  intros H.
  assert (G : forall k, (0 <= k)%Z -> forall o',
             1 <= o' <= _DI400Y -> roundtrip_ok (o' + k * _DI400Y) = true).
  { intros k Hk. pattern k. apply natlike_ind; [| |exact Hk].
    - intros o' Ho'. rewrite Z.add_0_r. now apply roundtrip_first_period.
    - intros j Hj IH o' Ho'.
      replace (o' + Z.succ j * _DI400Y) with (o' + j * _DI400Y + _DI400Y) by lia.
      apply roundtrip_ok_period. now apply IH. }
  replace o with (((o - 1) mod _DI400Y + 1) + ((o - 1) / _DI400Y) * _DI400Y).
  - apply G.
    + apply Z.div_pos; unfold _DI400Y; lia.
    + pose proof (Z.mod_pos_bound (o - 1) _DI400Y ltac:(unfold _DI400Y; lia)). lia.
  - pose proof (Z.div_mod (o - 1) _DI400Y ltac:(unfold _DI400Y; lia)). lia.
Qed.

(** [fromordinal] inverts [toordinal], and gives a valid date for every
    ordinal a [datetime] can have. *)
Lemma toordinal_fromordinal (o : Z) :
  1 <= o -> toordinal (fromordinal o) = o.
Proof.
  intros H. pose proof (roundtrip_ok_all o H) as R.
  unfold roundtrip_ok, toordinal, fromordinal in *.
  destruct (_ord2ymd o) as [[y m] d]. cbn [year month day].
  repeat (apply andb_true_iff in R; destruct R as [R ?]).
  now apply Z.eqb_eq in R.
Qed.

Lemma fromordinal_valid (o : Z) :
  1 <= o <= _MAXORDINAL -> valid_date (fromordinal o).
Proof.
  intros H. pose proof (roundtrip_ok_all o ltac:(lia)) as R.
  unfold roundtrip_ok, fromordinal, valid_date in *.
  destruct (_ord2ymd o) as [[y m] d]. cbn [year month day].
  repeat (apply andb_true_iff in R; destruct R as [R ?]).
  repeat match goal with
         | H : (_ <=? _) = true |- _ => apply Z.leb_le in H
         end.
  apply Z.eqb_eq in R. split; [|split; lia].
  pose proof (day_of_year_range y m d ltac:(lia) ltac:(lia)) as D.
  unfold _ymd2ord in R. unfold _MAXORDINAL, MINYEAR, MAXYEAR in *.
  pose proof (days_before_year_succ y) as S. fold (year_length y) in S.
  split.
  - destruct (Z.lt_ge_cases y 1) as [Hy|Hy]; [|assumption].
    pose proof (days_before_year_mono (y + 1) 1 ltac:(lia)) as M.
    change (_days_before_year 1) with 0 in M. lia.
  - destruct (Z.lt_ge_cases 9999 y) as [Hy|Hy]; [|assumption].
    pose proof (days_before_year_mono 10000 y ltac:(lia)) as M.
    change (_days_before_year 10000) with 3652059 in M. lia.
Qed.

(** *** The start date *)

Lemma comprehension_Forall2 {A B : Type} (f : A -> Result B) (l : list A) bs :
  comprehension f l = Returned bs ->
  Forall2 (fun a b => f a = Returned b) l bs.
Proof.
  revert bs; induction l as [|a l IH]; intros bs H; cbn in H.
  - injection H as <-. constructor.
  - destruct (f a) as [b|e] eqn:E; cbn in H; [|discriminate].
    destruct (comprehension f l) as [bs'|e]; cbn in H; [|discriminate].
    injection H as <-. constructor; auto.
Qed.

Lemma parsed_dates_valid (l : list StudySession) (dates : list datetime) :
  comprehension (fun s => strptime (date s)) l = Returned dates ->
  Forall valid_date dates.
Proof.
  intros H. apply comprehension_Forall2 in H.
  induction H; constructor; [|assumption].
  eapply strptime_valid; eassumption.
Qed.

Lemma min_fold_spec (l : list datetime) (d : datetime) :
  Forall valid_date (d :: l) ->
  forall r, r = fold_left (fun m x => if lt x m then x else m) l d ->
  In r (d :: l) /\ valid_date r
  /\ toordinal r <= toordinal d
  /\ forall x, In x l -> toordinal r <= toordinal x.
Proof.
  revert d. induction l as [|x l IH]; intros d H r ->; cbn [fold_left].
  - inversion H; subst. split; [now left|]. split; [assumption|].
    split; [lia|]. intros x [].
  - inversion H as [|? ? Hd Hl]; subst. inversion Hl as [|? ? Hx Hl']; subst.
    destruct (lt x d) eqn:E.
    + destruct (IH x Hl _ eq_refl) as (Hin & Hv & Hle & Hall).
      pose proof (toordinal_lt x d Hx Hd E).
      split; [|split; [assumption|split]].
      * destruct Hin as [<-|Hin]; [right; now left|right; now right].
      * lia.
      * intros y [<-|Hy]; auto.
    + destruct (IH d (Forall_cons d Hd Hl') _ eq_refl) as (Hin & Hv & Hle & Hall).
      pose proof (toordinal_le d x Hd Hx E).
      split; [|split; [assumption|split]].
      * destruct Hin as [<-|Hin]; [now left|right; now right].
      * assumption.
      * intros y [<-|Hy]; [lia|auto].
Qed.

(** [min] returns an element of the list that no element precedes. *)
Lemma min_spec (l : list datetime) (m : datetime) :
  Forall valid_date l -> Datetime.min l = Returned m ->
  In m l /\ valid_date m /\ forall x, In x l -> toordinal m <= toordinal x.
Proof.
  destruct l as [|d l]; [discriminate|]. intros Hv H. cbn in H.
  injection H as <-.
  destruct (min_fold_spec l d Hv _ eq_refl) as (Hin & Hval & Hle & Hall).
  split; [assumption|]. split; [assumption|]. intros x [<-|Hx]; auto.
Qed.

(** ** Truncation and rounding *)

Local Open Scope Q_scope.

Lemma int_nonneg (q : Q) : 0 <= q -> int q = Qfloor q.
Proof.
  destruct q as [a b]. unfold Qle, int, Qfloor. cbn. intros H.
  apply Z.quot_div_nonneg; lia.
Qed.

Lemma int_nonpos (q : Q) : q <= 0 -> int q = Qceiling q.
Proof.
  destruct q as [a b]. unfold Qle, int, Qceiling, Qfloor. cbn. intros H.
  replace a with (- (- a))%Z at 1 by lia.
  rewrite Z.quot_opp_l by lia. f_equal.
  apply Z.quot_div_nonneg; lia.
Qed.

(** [int] discards the fractional part: it is the floor of a value that is
    not negative and the ceiling of one that is not positive. *)
Lemma int_truncates (q : Q) :
  (0 <= q -> inject_Z (int q) <= q /\ q < inject_Z (int q) + 1)
  /\ (q <= 0 -> inject_Z (int q) - 1 < q /\ q <= inject_Z (int q)).
Proof.
  split; intros H.
  - rewrite (int_nonneg q H). split; [apply Qfloor_le|].
    pose proof (Qlt_floor q) as L. rewrite inject_Z_plus in L. exact L.
  - rewrite (int_nonpos q H). split; [|apply Qle_ceiling].
    pose proof (Qceiling_lt q) as L.
    unfold Z.sub in L. rewrite inject_Z_plus in L. exact L.
Qed.

(** ** The end of the handler *)

Local Open Scope Z_scope.


Local Open Scope Q_scope.

(** ** A date that does not parse *)

(** C7, as stated, fails: the [ValueError] of [strptime] is not caught and
    is not turned into an [HTTPException], so the answer is the server
    error 500 with the fixed body, not a client error with a message about
    the date. *)
Lemma bad_date_counterexample :
  strptime "01/02/2024" = Raised ValueError
  /\ predict_completion bad_date_request = Raised ValueError
  /\ post_predict bad_date_request = HttpError 500 "Internal Server Error"
  /\ ~ client_error (post_predict bad_date_request).
Proof.
  assert (E : post_predict bad_date_request
              = HttpError 500 "Internal Server Error") by reflexivity.
  split; [reflexivity|]. split; [reflexivity|]. split; [exact E|].
  rewrite E. unfold client_error. cbn [code_of]. lia.
Qed.

(** C7 (amended): with three or more sessions of which one has a date that
    does not parse, the handler raises [ValueError]: the session is not
    skipped and no business outcome is returned.  Nothing catches the
    exception, so the caller receives the server error 500. *)
Theorem unparsable_date_raises (data : PredictionRequest) :
  (3 <= List.length (sessions data))%nat ->
  (exists s, In s (sessions data) /\ strptime (date s) = Raised ValueError) ->
  predict_completion data = Raised ValueError
  /\ post_predict data = HttpError 500 "Internal Server Error"
  /\ forall o, predict_completion data <> Returned o.
Proof.
  intros Hlen Hbad.
  assert (Hp : predict_completion data = Raised ValueError).
  { unfold predict_completion.
    destruct (Nat.ltb_spec (List.length (sessions data)) 3); [lia|].
    rewrite (comprehension_value_error (fun s => strptime (date s))); auto.
    intros a _. apply strptime_cases. }
  unfold post_predict. rewrite Hp. repeat split. discriminate.
Qed.

Lemma unparsable_date_raises_witness :
  predict_completion bad_date_request = Raised ValueError
  /\ post_predict bad_date_request = HttpError 500 "Internal Server Error"
  /\ forall o, predict_completion bad_date_request <> Returned o.
Proof.
  apply (unparsable_date_raises bad_date_request).
  - simpl. lia.
  - exists (mk_session "01/02/2024" 2). split; [|reflexivity].
    simpl. right. left. reflexivity.
Defined.

(** ** Which answer, when *)

Lemma conclude_cases (l : Locals) :
  conclude l = Returned stalled
  \/ (exists d v, conclude l = Returned (success d v))
  \/ conclude l = Raised OverflowError.
Proof.
  unfold conclude. destruct (Qle_bool (velocity l) 0); [now left|].
  unfold timedelta_days. destruct (Z.abs _ >? 999999999)%Z; [now right; right|].
  cbn [bind]. unfold add_timedelta.
  destruct ((0 <? _)%Z && _); cbn [bind]; [right; left; eauto|now right; right].
Qed.

(** The handler answers [insufficient_data] exactly for the requests with
    fewer than three sessions. *)
Theorem insufficient_data_iff (data : PredictionRequest) :
  predict_completion data = Returned insufficient_data
  <-> (List.length (sessions data) < 3)%nat.
Proof.
  split.
  2: { intros H. unfold predict_completion. apply Nat.ltb_lt in H.
       now rewrite H. }
  intros H. rewrite predict_completion_locals in H.
  destruct (Nat.ltb_spec (List.length (sessions data)) 3) as [|Hlen];
    [assumption|exfalso].
  destruct (locals data) as [l|e]; [|discriminate]. cbn [bind] in H.
  destruct (conclude_cases l) as [E|[(d & v & E)|E]]; rewrite E in H;
    discriminate.
Qed.

(** ** The start date *)

Lemma days_since_start_nonneg (data : PredictionRequest) (l : Locals) :
  locals data = Returned l ->
  Forall (fun x => 0 <= x) (days_since_start l)
  /\ In 0 (days_since_start l).
Proof.
  intros Hl. destruct (locals_inv _ _ Hl) as (dates & Hd & Hmin & Hx & _).
  pose proof (parsed_dates_valid _ _ Hd) as Hval.
  destruct (min_spec _ _ Hval Hmin) as (Hin & _ & Hle).
  rewrite Hx. split.
  - apply Forall_map, Forall_forall. intros d Hdin. specialize (Hle d Hdin).
    unfold sub_days, Qle, inject_Z. cbn. lia.
  - apply in_map_iff. exists (start_date l). split; [|assumption].
    unfold sub_days. now rewrite Z.sub_diag.
Qed.

(** The days since the start are never negative, and the day of the
    earliest session is 0, whatever the order of the sessions: every
    session's day is the whole number of days from the earliest date to its
    own. *)
Theorem days_since_start_from_zero (data : PredictionRequest) (l : Locals) :
  locals data = Returned l ->
  Forall (fun x => 0 <= x) (days_since_start l)
  /\ In 0 (days_since_start l).
Proof. apply days_since_start_nonneg. Qed.

Lemma days_since_start_from_zero_witness :
  Forall (fun x => 0 <= x) (days_since_start example_locals)
  /\ In 0 (days_since_start example_locals).
Proof.
  apply (days_since_start_from_zero example_request example_locals).
  vm_compute. reflexivity.
Defined.



(** ** More remaining hours *)





(** ** The predicted date as a string *)

Local Open Scope Z_scope.

Lemma digit_char (k : Z) :
  0 <= k < 10 ->
  is_digit (ascii_of_nat (Z.to_nat (48 + k))) = true
  /\ digit (ascii_of_nat (Z.to_nat (48 + k))) = k.
Proof.
  intros H.
  assert (C : k = 0 \/ k = 1 \/ k = 2 \/ k = 3 \/ k = 4 \/ k = 5 \/ k = 6
              \/ k = 7 \/ k = 8 \/ k = 9) by lia.
  repeat (destruct C as [C|C]); subst k; split; reflexivity.
Qed.

Lemma match_four_digits (y : Z) (s : string) :
  0 <= y <= 9999 ->
  match_classes [is_digit; is_digit; is_digit; is_digit] 0
    (pad 4 y ++ s)%string
  = Some (y, s).
Proof.
  intros H. cbn [pad append].
  assert (B0 : 0 <= y mod 10 < 10) by (apply Z.mod_pos_bound; lia).
  assert (B1 : 0 <= (y / 10) mod 10 < 10) by (apply Z.mod_pos_bound; lia).
  assert (B2 : 0 <= (y / 10 / 10) mod 10 < 10) by (apply Z.mod_pos_bound; lia).
  assert (B3 : 0 <= (y / 10 / 10 / 10) mod 10 < 10)
    by (apply Z.mod_pos_bound; lia).
  destruct (digit_char _ B0) as [D0 V0]. destruct (digit_char _ B1) as [D1 V1].
  destruct (digit_char _ B2) as [D2 V2]. destruct (digit_char _ B3) as [D3 V3].
  cbn [match_classes]. rewrite D3, D2, D1, D0, V3, V2, V1, V0.
  f_equal. f_equal. Z.div_mod_to_equations. lia.
Qed.

Lemma match_year (y : Z) (s : string) :
  0 <= y <= 9999 -> match_group re_Y (pad 4 y ++ s)%string = [(y, s)].
Proof.
  intros H. unfold match_group, re_Y. cbn [flat_map].
  now rewrite match_four_digits.
Qed.

Lemma regex_strftime (y m d : Z) :
  0 <= y <= 9999 -> 1 <= m <= 12 -> 1 <= d <= 31 ->
  exists rest,
    regex_matches (pad 4 y ++ "-" ++ pad 2 m ++ "-" ++ pad 2 d)%string
    = (y, m, d, EmptyString) :: rest.
Proof.
  intros Hy Hm Hd. unfold regex_matches. rewrite match_year by assumption.
  cbn [flat_map].
  month_cases m;
    (assert (C : d = 1 \/ d = 2 \/ d = 3 \/ d = 4 \/ d = 5 \/ d = 6 \/ d = 7
                 \/ d = 8 \/ d = 9 \/ d = 10 \/ d = 11 \/ d = 12 \/ d = 13
                 \/ d = 14 \/ d = 15 \/ d = 16 \/ d = 17 \/ d = 18 \/ d = 19
                 \/ d = 20 \/ d = 21 \/ d = 22 \/ d = 23 \/ d = 24 \/ d = 25
                 \/ d = 26 \/ d = 27 \/ d = 28 \/ d = 29 \/ d = 30 \/ d = 31)
       by lia;
     repeat (destruct C as [C|C]); subst d;
     vm_compute; eexists; reflexivity).
Qed.

Lemma days_in_month_le_31 (y m : Z) : 1 <= m <= 12 -> _days_in_month y m <= 31.
Proof.
  intros Hm. unfold _days_in_month.
  month_cases m; destruct (_is_leap y); tables; lia.
Qed.

Local Open Scope Q_scope.

(** * The handler over binary64 *)

Local Open Scope Z_scope.

(** ** Truncation of a float *)

Lemma int_of_finite (f : B64.float) :
  B64.is_finite f = true -> B64.int f = Returned (int (B64.value f)).
Proof.
  destruct f as [s|s| |s m e]; try discriminate; intros _.
  - reflexivity.
  - destruct e as [|e|k]; cbn [B64.int B64.value].
    + f_equal. unfold int, inject_Z. cbn [Qnum Qden].
      now rewrite Z.quot_1_r.
    + f_equal. unfold int, inject_Z. cbn [Qnum Qden].
      now rewrite Z.quot_1_r.
    + reflexivity.
Qed.

Lemma int_returns (f : B64.float) (n : Z) :
  B64.int f = Returned n ->
  B64.is_finite f = true /\ n = int (B64.value f).
Proof.
  intros H. assert (Hf : B64.is_finite f = true)
    by (destruct f; first [reflexivity|discriminate]).
  split; [exact Hf|]. rewrite (int_of_finite f Hf) in H. congruence.
Qed.

(** A float above zero is not at most zero. *)
Lemma positive_not_le (v : B64.float) :
  B64.ltb B64.zero v = true -> B64.leb v B64.zero = false.
Proof.
  destruct v as [s|s| |s m e]; try destruct s; cbn; try discriminate;
    reflexivity.
Qed.

(** ** The handler in terms of its parts *)

Lemma code_parsed_dates_valid (l : list Code.StudySession)
  (dates : list datetime) :
  comprehension (fun s => strptime (Code.date s)) l = Returned dates ->
  Forall valid_date dates.
Proof.
  intros H. apply comprehension_Forall2 in H.
  induction H; constructor; [|assumption].
  eapply strptime_valid; eassumption.
Qed.

Section CodeFacts.

Variable lstsq : Code.solver.

Lemma code_predict_locals (data : Code.PredictionRequest) :
  Code.predict_completion lstsq data =
  if (List.length (Code.sessions data) <? 3)%nat
  then Returned Code.insufficient_data
  else l <- Code.locals lstsq data ;; Code.conclude l.
Proof.
  unfold Code.predict_completion, Code.locals, Code.prepare, Code.after_fit,
    Code.conclude.
  destruct (List.length (Code.sessions data) <? 3)%nat; [reflexivity|].
  destruct (comprehension _ (Code.sessions data)) as [dates|e]; [|reflexivity].
  cbn [bind]. destruct (Datetime.min dates) as [start|e]; [|reflexivity].
  cbn [bind fst snd]. destruct (Code.fit lstsq _ _) as [m|e]; [|reflexivity].
  cbn [bind]. destruct (Code.last _) as [total|e]; reflexivity.
Qed.

Lemma code_predict_finish (data : Code.PredictionRequest) :
  Code.predict_completion lstsq data =
  if (List.length (Code.sessions data) <? 3)%nat
  then Returned Code.insufficient_data
  else
    p <- Code.prepare data ;;
    model <- Code.fit lstsq (snd (fst p)) (snd p) ;;
    Code.finish p model (Code.remaining_hours data).
Proof.
  rewrite code_predict_locals. unfold Code.locals, Code.finish.
  destruct (_ <? 3)%nat; [reflexivity|].
  destruct (Code.prepare data) as [p|e]; [|reflexivity]. cbn [bind].
  destruct (Code.fit lstsq _ _) as [m|e]; reflexivity.
Qed.

Lemma code_locals_inv (data : Code.PredictionRequest) (l : Code.Locals) :
  Code.locals lstsq data = Returned l ->
  Code.prepare data
  = Returned (Code.start_date l, Code.days_since_start l,
              Code.cumulative_hours l)
  /\ forallb B64.is_finite (Code.cumulative_hours l) = true
  /\ lstsq (Code.days_since_start l) (Code.cumulative_hours l)
     = Returned (Code.velocity l, Code.intercept l)
  /\ Code.last (Code.cumulative_hours l) = Returned (Code.current_total l)
  /\ Code.target_total l
     = B64.add (Code.current_total l) (Code.remaining_hours data)
  /\ Code.days_needed l
     = B64.div (B64.sub (Code.target_total l) (Code.intercept l))
         (Code.velocity l).
Proof.
  unfold Code.locals. intros H.
  destruct (Code.prepare data) as [[[start xs] ys]|e]; [|discriminate].
  cbn [bind fst snd] in H. unfold Code.fit in H.
  destruct (forallb B64.is_finite ys) eqn:Hfin;
    [|discriminate].
  destruct (lstsq xs ys) as [[v i]|e] eqn:Hfit; [|discriminate].
  cbn [bind] in H. unfold Code.after_fit in H.
  destruct (Code.last ys) as [total|e] eqn:Hlast; [|discriminate].
  cbn [bind fst snd] in H. injection H as <-. cbn. repeat split; assumption.
Qed.

Lemma code_prepare_inv (data : Code.PredictionRequest) start xs ys :
  Code.prepare data = Returned (start, xs, ys) ->
  exists dates,
    comprehension (fun s => strptime (Code.date s)) (Code.sessions data)
    = Returned dates
    /\ Datetime.min dates = Returned start
    /\ xs = List.map (fun d => sub_days d start) dates
    /\ ys = Code.cumsum (List.map Code.hours (Code.sessions data)).
Proof.
  unfold Code.prepare. intros H.
  destruct (comprehension _ (Code.sessions data)) as [dates|e] eqn:Hd;
    [|discriminate].
  cbn [bind] in H. destruct (Datetime.min dates) as [s|e] eqn:Hm; [|discriminate].
  cbn [bind] in H. injection H as <- <- <-. exists dates. auto.
Qed.

Lemma code_start_valid (data : Code.PredictionRequest) start xs ys :
  Code.prepare data = Returned (start, xs, ys) -> valid_date start.
Proof.
  intros H. destruct (code_prepare_inv _ _ _ _ H) as (dates & Hd & Hm & _).
  pose proof (code_parsed_dates_valid _ _ Hd) as Hv.
  now destruct (min_spec _ _ Hv Hm) as (_ & ? & _).
Qed.

Lemma code_predict_conclude (data : Code.PredictionRequest) (l : Code.Locals) :
  (3 <= List.length (Code.sessions data))%nat ->
  Code.locals lstsq data = Returned l ->
  Code.predict_completion lstsq data = Code.conclude l.
Proof.
  intros H Hl. rewrite code_predict_locals.
  destruct (Nat.ltb_spec (List.length (Code.sessions data)) 3); [lia|].
  now rewrite Hl.
Qed.

End CodeFacts.

(** ** From the day count to the answer *)

Lemma code_conclude_nan (l : Code.Locals) :
  B64.leb (Code.velocity l) B64.zero = false ->
  Code.days_needed l = S754_nan ->
  Code.conclude l = Raised ValueError.
Proof. intros Hv Hd. unfold Code.conclude. now rewrite Hv, Hd. Qed.

Lemma code_conclude_infinity (l : Code.Locals) (s : bool) :
  B64.leb (Code.velocity l) B64.zero = false ->
  Code.days_needed l = S754_infinity s ->
  Code.conclude l = Raised OverflowError.
Proof. intros Hv Hd. unfold Code.conclude. now rewrite Hv, Hd. Qed.

Lemma code_conclude_in_range (l : Code.Locals) :
  valid_date (Code.start_date l) ->
  B64.leb (Code.velocity l) B64.zero = false ->
  B64.is_finite (Code.days_needed l) = true ->
  representable (toordinal (Code.start_date l)
                 + int (B64.value (Code.days_needed l))) ->
  Code.conclude l
  = Returned (Code.success
                (strftime (fromordinal
                             (toordinal (Code.start_date l)
                              + int (B64.value (Code.days_needed l)))))
                (B64.round2 (Code.velocity l))).
Proof.
  intros Hs Hv Hf Hr. unfold Code.conclude, representable in *.
  rewrite Hv, (int_of_finite _ Hf). cbn [bind].
  pose proof (toordinal_bounds _ Hs) as B. unfold _MAXORDINAL in *.
  unfold timedelta_days.
  destruct (Z.gtb_spec (Z.abs (int (B64.value (Code.days_needed l)))) 999999999);
    [lia|].
  cbn [bind]. unfold add_timedelta.
  destruct (Z.ltb_spec 0 (toordinal (Code.start_date l)
                          + int (B64.value (Code.days_needed l)))); [|lia].
  destruct (Z.leb_spec (toordinal (Code.start_date l)
                        + int (B64.value (Code.days_needed l))) _MAXORDINAL);
    [reflexivity|unfold _MAXORDINAL in *; lia].
Qed.

Lemma code_conclude_out_of_range (l : Code.Locals) :
  B64.leb (Code.velocity l) B64.zero = false ->
  B64.is_finite (Code.days_needed l) = true ->
  ~ representable (toordinal (Code.start_date l)
                   + int (B64.value (Code.days_needed l))) ->
  Code.conclude l = Raised OverflowError.
Proof.
  intros Hv Hf Hr. unfold Code.conclude, representable in *.
  rewrite Hv, (int_of_finite _ Hf). cbn [bind]. unfold timedelta_days.
  destruct (Z.gtb_spec (Z.abs (int (B64.value (Code.days_needed l)))) 999999999);
    [reflexivity|].
  cbn [bind]. unfold add_timedelta.
  destruct (Z.ltb_spec 0 (toordinal (Code.start_date l)
                          + int (B64.value (Code.days_needed l))));
    [|reflexivity].
  destruct (Z.leb_spec (toordinal (Code.start_date l)
                        + int (B64.value (Code.days_needed l))) _MAXORDINAL);
    [lia|reflexivity].
Qed.

(** What the handler answers once the velocity has passed the test, by the
    kind of float the day count is. *)
Lemma code_projection (lstsq : Code.solver)
  (data : Code.PredictionRequest) (l : Code.Locals) :
  (3 <= List.length (Code.sessions data))%nat ->
  Code.locals lstsq data = Returned l ->
  B64.leb (Code.velocity l) B64.zero = false ->
  (Code.days_needed l = S754_nan ->
   Code.predict_completion lstsq data = Raised ValueError)
  /\ (forall s, Code.days_needed l = S754_infinity s ->
      Code.predict_completion lstsq data = Raised OverflowError)
  /\ (B64.is_finite (Code.days_needed l) = true ->
      let n := int (B64.value (Code.days_needed l)) in
      B64.int (Code.days_needed l) = Returned n
      /\ (representable (toordinal (Code.start_date l) + n) ->
          exists finish,
            valid_date finish
            /\ sub_days finish (Code.start_date l) = n
            /\ Code.predict_completion lstsq data
               = Returned (Code.success (strftime finish)
                             (B64.round2 (Code.velocity l))))
      /\ (~ representable (toordinal (Code.start_date l) + n) ->
          Code.predict_completion lstsq data = Raised OverflowError)).
Proof.
  intros Hlen Hl Hv. rewrite (code_predict_conclude lstsq _ _ Hlen Hl).
  split; [now apply code_conclude_nan|].
  split; [intros s; now apply code_conclude_infinity|].
  intros Hf n. split; [now apply int_of_finite|]. split.
  - intros Hr. exists (fromordinal (toordinal (Code.start_date l) + n)).
    split; [now apply fromordinal_valid|]. split.
    + unfold sub_days. rewrite toordinal_fromordinal; [lia|apply Hr].
    + apply code_conclude_in_range; auto.
      destruct (code_locals_inv lstsq _ _ Hl) as (Hp & _).
      eapply code_start_valid; eauto.
  - intros Hr. now apply code_conclude_out_of_range.
Qed.

(** A success answer, read backwards. *)
Lemma code_success_inv (lstsq : Code.solver) (data : Code.PredictionRequest)
  (d : string) (v : B64.float) :
  Code.predict_completion lstsq data = Returned (Code.success d v) ->
  exists l,
    (3 <= List.length (Code.sessions data))%nat
    /\ Code.locals lstsq data = Returned l
    /\ B64.leb (Code.velocity l) B64.zero = false
    /\ B64.is_finite (Code.days_needed l) = true
    /\ representable (toordinal (Code.start_date l)
                      + int (B64.value (Code.days_needed l)))
    /\ d = strftime (fromordinal (toordinal (Code.start_date l)
                                  + int (B64.value (Code.days_needed l))))
    /\ v = B64.round2 (Code.velocity l).
Proof.
  intros H. rewrite code_predict_locals in H.
  destruct (Nat.ltb_spec (List.length (Code.sessions data)) 3) as [|Hlen];
    [discriminate|].
  destruct (Code.locals lstsq data) as [l|e] eqn:Hl; [|discriminate].
  cbn [bind] in H. exists l. split; [exact Hlen|]. split; [reflexivity|].
  destruct (B64.leb (Code.velocity l) B64.zero) eqn:Hv.
  { unfold Code.conclude in H. rewrite Hv in H. discriminate. }
  split; [reflexivity|].
  destruct (B64.is_finite (Code.days_needed l)) eqn:Hf.
  2: { destruct (Code.days_needed l) as [s|s| |s m e] eqn:Hd;
         try discriminate.
       - now rewrite (code_conclude_infinity l s Hv Hd) in H.
       - now rewrite (code_conclude_nan l Hv Hd) in H. }
  split; [reflexivity|].
  assert (Hr : representable (toordinal (Code.start_date l)
                              + int (B64.value (Code.days_needed l)))).
  { destruct (Z.le_gt_cases 1 (toordinal (Code.start_date l)
                               + int (B64.value (Code.days_needed l))));
      destruct (Z.le_gt_cases (toordinal (Code.start_date l)
                               + int (B64.value (Code.days_needed l)))
                  _MAXORDINAL);
      try (split; assumption);
      rewrite (code_conclude_out_of_range l Hv Hf) in H; try discriminate;
      unfold representable; lia. }
  split; [exact Hr|].
  destruct (code_locals_inv lstsq _ _ Hl) as (Hp & _).
  rewrite (code_conclude_in_range l (code_start_valid _ _ _ _ Hp) Hv Hf Hr)
    in H.
  injection H as <- <-. split; reflexivity.
Qed.

(** The transport answers 200 or 500. *)
Lemma code_never_client_error (lstsq : Code.solver)
  (data : Code.PredictionRequest) :
  ~ Code.client_error (Code.post_predict lstsq data).
Proof.
  unfold Code.client_error, Code.post_predict.
  destruct (Code.predict_completion lstsq data) as [[| |d v]|e];
    try destruct (B64.is_finite v); cbn; lia.
Qed.

(** ** Up to the fit *)

Lemma code_cumsum_nonempty (l : list B64.float) :
  l <> [] -> Code.cumsum l <> [].
Proof. destruct l; [congruence|discriminate]. Qed.

Lemma code_last_returns (l : list B64.float) :
  l <> [] -> exists v, Code.last l = Returned v.
Proof.
  intros H. unfold Code.last. destruct (rev l) eqn:E.
  - apply (f_equal (@rev B64.float)) in E. rewrite rev_involutive in E.
    now cbn in E.
  - eauto.
Qed.

Lemma code_prepare_returns (data : Code.PredictionRequest)
  (dates : list datetime) :
  Code.sessions data <> [] ->
  comprehension (fun s => strptime (Code.date s)) (Code.sessions data)
  = Returned dates ->
  exists start,
    Datetime.min dates = Returned start
    /\ Code.prepare data
       = Returned (start, List.map (fun d => sub_days d start) dates,
                   Code.cumsum (List.map Code.hours (Code.sessions data))).
Proof.
  intros Hne Hd. destruct (min_returns dates) as [start Hm].
  { intros E. apply comprehension_length in Hd. rewrite E in Hd.
    destruct (Code.sessions data); [congruence|discriminate]. }
  exists start. split; [exact Hm|]. unfold Code.prepare.
  now rewrite Hd; cbn [bind]; rewrite Hm.
Qed.

(** After [prepare] the handler is the fit followed by the rest: a target
    that is not finite is refused, a finite one is handed to the solver. *)
Lemma code_predict_after_prepare (lstsq : Code.solver)
  (data : Code.PredictionRequest) start xs ys :
  (3 <= List.length (Code.sessions data))%nat ->
  Code.prepare data = Returned (start, xs, ys) ->
  (forallb B64.is_finite ys = false ->
   Code.predict_completion lstsq data = Raised ValueError)
  /\ (forallb B64.is_finite ys = true ->
      Code.predict_completion lstsq data
      = (model <- lstsq xs ys ;;
         Code.finish (start, xs, ys) model (Code.remaining_hours data))).
Proof.
  intros Hlen Hp. rewrite code_predict_finish.
  destruct (Nat.ltb_spec (List.length (Code.sessions data)) 3); [lia|].
  rewrite Hp. cbn [bind fst snd]. unfold Code.fit.
  split; intros ->; reflexivity.
Qed.


Lemma code_sessions_nonempty (data : Code.PredictionRequest) :
  (3 <= List.length (Code.sessions data))%nat -> Code.sessions data <> [].
Proof. intros H E. rewrite E in H. cbn in H. lia. Qed.

Lemma code_cumsum_from_nth (l : list B64.float) :
  forall acc k h,
    nth_error l k = Some h ->
    nth_error (Code.cumsum_from acc l) k
    = Some (B64.add (nth k (acc :: Code.cumsum_from acc l) B64.zero) h).
Proof.
  induction l as [|a l IH]; intros acc k h H; [now destruct k|].
  destruct k as [|k]; cbn in H |- *.
  - now injection H as ->.
  - now rewrite (IH _ _ _ H).
Qed.

(** Each running sum is the one before plus the hours of its session. *)
Lemma code_cumsum_nth (l : list B64.float) (k : nat) (h : B64.float) :
  nth_error l k = Some h ->
  nth_error (Code.cumsum l) k
  = Some (match k with
          | O => h
          | S j => B64.add (nth j (Code.cumsum l) B64.zero) h
          end).
Proof.
  destruct l as [|a l]; [now destruct k|].
  destruct k as [|k]; cbn [nth_error Code.cumsum]; [congruence|].
  apply code_cumsum_from_nth.
Qed.

(** ** A positive velocity *)

(** C5 (amended): with a strictly positive velocity the handler divides
    [target_total - intercept] by the velocity in float64.  A quotient that
    is NaN makes [int] raise [ValueError] and an infinite one
    [OverflowError].  A finite quotient is truncated toward zero, for
    positive and negative values alike; when the start date plus that many
    days is a date from 0001-01-01 to 9999-12-31 the answer is success with
    that date, which lies exactly that many days from the start date, and
    otherwise the handler raises [OverflowError]. *)
Theorem projection_by_truncated_days (lstsq : Code.solver)
  (data : Code.PredictionRequest) (l : Code.Locals) :
  (3 <= List.length (Code.sessions data))%nat ->
  Code.locals lstsq data = Returned l ->
  B64.ltb B64.zero (Code.velocity l) = true ->
  Code.days_needed l
  = B64.div (B64.sub (Code.target_total l) (Code.intercept l))
      (Code.velocity l)
  /\ (Code.days_needed l = S754_nan ->
      Code.predict_completion lstsq data = Raised ValueError)
  /\ (forall s, Code.days_needed l = S754_infinity s ->
      Code.predict_completion lstsq data = Raised OverflowError)
  /\ (B64.is_finite (Code.days_needed l) = true ->
      exists n,
        B64.int (Code.days_needed l) = Returned n
        /\ (0 <= B64.value (Code.days_needed l) ->
            inject_Z n <= B64.value (Code.days_needed l)
            /\ B64.value (Code.days_needed l) < inject_Z n + 1)%Q
        /\ (B64.value (Code.days_needed l) <= 0 ->
            inject_Z n - 1 < B64.value (Code.days_needed l)
            /\ B64.value (Code.days_needed l) <= inject_Z n)%Q
        /\ (representable (toordinal (Code.start_date l) + n) ->
            exists finish,
              valid_date finish
              /\ sub_days finish (Code.start_date l) = n
              /\ Code.predict_completion lstsq data
                 = Returned (Code.success (strftime finish)
                               (B64.round2 (Code.velocity l))))
        /\ (~ representable (toordinal (Code.start_date l) + n) ->
            Code.predict_completion lstsq data = Raised OverflowError)).
Proof.
  intros Hlen Hl Hpos. apply positive_not_le in Hpos.
  destruct (code_locals_inv lstsq _ _ Hl) as (_ & _ & _ & _ & _ & Hd).
  destruct (code_projection lstsq data l Hlen Hl Hpos) as (Hnan & Hinf & Hfin).
  split; [exact Hd|]. split; [exact Hnan|]. split; [exact Hinf|].
  intros Hf. destruct (Hfin Hf) as (Hint & Hin & Hout).
  exists (int (B64.value (Code.days_needed l))).
  destruct (int_truncates (B64.value (Code.days_needed l))) as [Tp Tn].
  split; [exact Hint|]. split; [exact Tp|]. split; [exact Tn|].
  split; [exact Hin|exact Hout].
Qed.

Lemma projection_by_truncated_days_witness :
  B64.int (Code.days_needed code_example_locals) = Returned 4
  /\ exists finish,
       valid_date finish
       /\ sub_days finish (Code.start_date code_example_locals) = 4
       /\ Code.predict_completion two_two code_example
          = Returned (Code.success (strftime finish)
                        (B64.round2 (Code.velocity code_example_locals))).
Proof.
  destruct (projection_by_truncated_days two_two code_example
              code_example_locals) as (_ & _ & _ & H).
  - cbn. lia.
  - vm_compute. reflexivity.
  - vm_compute. reflexivity.
  - destruct (H eq_refl) as (n & Hn & _ & _ & Hin & _).
    split; [vm_compute; reflexivity|].
    assert (E : n = 4) by (vm_compute in Hn; congruence). subst n.
    apply Hin. vm_compute. split; discriminate.
Defined.

(** C5, as stated, fails.  A positive velocity and yet no answer: the
    projection leaves the calendar whether the solver is exact or one unit
    in the last place off, and a NaN for the remaining hours reaches [int]
    whatever positive velocity the solver answers. *)
Lemma projection_counterexample :
  B64.ltb B64.zero f2 = true
  /\ Code.predict_completion two_two late_request = Raised OverflowError
  /\ Code.predict_completion near_two_two late_request = Raised OverflowError
  /\ Code.post_predict near_two_two late_request
     = Code.HttpError 500 "Internal Server Error"
  /\ forall lstsq v i,
       lstsq [0; 1; 2] [f2; f4; B64.of_Z 6] = Returned (v, i) ->
       B64.ltb B64.zero v = true ->
       Code.predict_completion lstsq nan_request = Raised ValueError
       /\ Code.post_predict lstsq nan_request
          = Code.HttpError 500 "Internal Server Error".
Proof.
  split; [reflexivity|]. split; [vm_compute; reflexivity|].
  split; [vm_compute; reflexivity|]. split; [vm_compute; reflexivity|].
  intros lstsq v i Hfit Hpos.
  assert (H : Code.predict_completion lstsq nan_request = Raised ValueError).
  { assert (Hp : Code.prepare nan_request
                 = Returned (mk_datetime 2024 1 1, [0; 1; 2],
                             [f2; f4; B64.of_Z 6]))
      by (vm_compute; reflexivity).
    destruct (code_predict_after_prepare lstsq nan_request _ _ _
                ltac:(cbn; lia) Hp) as (_ & Hfin).
    rewrite Hfin by reflexivity. rewrite Hfit. cbn [bind]. apply positive_not_le in Hpos.
    unfold Code.finish, Code.after_fit.
    change (Code.last [f2; f4; B64.of_Z 6]) with (Returned (B64.of_Z 6)).
    cbn [bind fst snd].
    apply code_conclude_nan; [exact Hpos|]. cbn [Code.days_needed].
    destruct i, v; reflexivity. }
  split; [exact H|]. unfold Code.post_predict. now rewrite H.
Qed.

(** ** Negative remaining hours *)

(** C10 (amended): negative remaining hours are not refused.  Once the
    model is fitted the target is the float64 sum of the current total and
    the remaining hours, and the response is never a client error.  With a
    velocity at most zero the answer is [stalled]; with a positive one it
    is success exactly when the day count is finite and the start date
    plus its truncation is a date from 0001-01-01 to 9999-12-31, and
    otherwise [ValueError] (NaN) or [OverflowError]. *)
Theorem negative_remaining_hours_outcomes (lstsq : Code.solver)
  (data : Code.PredictionRequest) (l : Code.Locals) :
  (3 <= List.length (Code.sessions data))%nat ->
  B64.ltb (Code.remaining_hours data) B64.zero = true ->
  Code.locals lstsq data = Returned l ->
  Code.target_total l
  = B64.add (Code.current_total l) (Code.remaining_hours data)
  /\ ~ Code.client_error (Code.post_predict lstsq data)
  /\ (B64.leb (Code.velocity l) B64.zero = true ->
      Code.predict_completion lstsq data = Returned Code.stalled)
  /\ (B64.ltb B64.zero (Code.velocity l) = true ->
      (Code.days_needed l = S754_nan ->
       Code.predict_completion lstsq data = Raised ValueError)
      /\ (forall s, Code.days_needed l = S754_infinity s ->
          Code.predict_completion lstsq data = Raised OverflowError)
      /\ (forall n,
             B64.int (Code.days_needed l) = Returned n ->
             (representable (toordinal (Code.start_date l) + n) ->
              exists finish,
                sub_days finish (Code.start_date l) = n
                /\ Code.predict_completion lstsq data
                   = Returned (Code.success (strftime finish)
                                 (B64.round2 (Code.velocity l))))
             /\ (~ representable (toordinal (Code.start_date l) + n) ->
                 Code.predict_completion lstsq data
                 = Raised OverflowError))).
Proof.
  intros Hlen _ Hl.
  destruct (code_locals_inv lstsq _ _ Hl) as (_ & _ & _ & _ & Ht & _).
  split; [exact Ht|]. split; [apply code_never_client_error|]. split.
  - intros Hv. rewrite (code_predict_conclude lstsq _ _ Hlen Hl).
    unfold Code.conclude. now rewrite Hv.
  - intros Hpos. apply positive_not_le in Hpos.
    destruct (code_projection lstsq data l Hlen Hl Hpos)
      as (Hnan & Hinf & Hfin).
    split; [exact Hnan|]. split; [exact Hinf|].
    intros n Hn. destruct (int_returns _ _ Hn) as (Hf & ->).
    destruct (Hfin Hf) as (_ & Hin & Hout). split.
    + intros Hr. destruct (Hin Hr) as (finish & _ & Hs & Hp). eauto.
    + exact Hout.
Qed.

Lemma negative_remaining_hours_outcomes_witness :
  Code.target_total code_behind_locals
  = B64.add (Code.current_total code_behind_locals)
      (Code.remaining_hours code_behind_request)
  /\ exists finish,
       sub_days finish (Code.start_date code_behind_locals) = 1
       /\ Code.predict_completion two_two code_behind_request
          = Returned (Code.success (strftime finish)
                        (B64.round2 (Code.velocity code_behind_locals))).
Proof.
  destruct (negative_remaining_hours_outcomes two_two code_behind_request
              code_behind_locals) as (Ht & _ & _ & H).
  - cbn. lia.
  - vm_compute. reflexivity.
  - vm_compute. reflexivity.
  - split; [exact Ht|].
    destruct (H eq_refl) as (_ & _ & Hfin).
    destruct (Hfin 1 eq_refl) as (Hin & _).
    apply Hin. vm_compute. split; discriminate.
Defined.

(** C10, as stated, fails.  Negative remaining hours with a positive
    velocity and no success: a day count far before year 1, and minus
    infinity, which no positive velocity turns into a date.  And a target
    that is not below the current total: [3e16 - 1] is [3e16] in
    float64. *)
Lemma negative_remaining_counterexample :
  B64.ltb (Code.remaining_hours behind_slow_request) B64.zero = true
  /\ Code.predict_completion slow_line behind_slow_request
     = Raised OverflowError
  /\ Code.post_predict slow_line behind_slow_request
     = Code.HttpError 500 "Internal Server Error"
  /\ B64.ltb (Code.remaining_hours minus_infinity_request) B64.zero = true
  /\ (forall lstsq v i,
         lstsq [0; 1; 2] [f2; f4; B64.of_Z 6] = Returned (v, i) ->
         B64.ltb B64.zero v = true ->
         Code.predict_completion lstsq minus_infinity_request
         = Raised OverflowError
         \/ Code.predict_completion lstsq minus_infinity_request
            = Raised ValueError)
  /\ B64.ltb (Code.remaining_hours absorbed_request) B64.zero = true
  /\ exists l,
       Code.locals two_two absorbed_request = Returned l
       /\ Code.target_total l = Code.current_total l.
Proof.
  split; [reflexivity|]. split; [vm_compute; reflexivity|].
  split; [vm_compute; reflexivity|]. split; [reflexivity|].
  split; [|split; [reflexivity|eexists; split; vm_compute; reflexivity]].
  intros lstsq v i Hfit Hpos.
  assert (Hp : Code.prepare minus_infinity_request
               = Returned (mk_datetime 2024 1 1, [0; 1; 2],
                           [f2; f4; B64.of_Z 6]))
    by (vm_compute; reflexivity).
  destruct (code_predict_after_prepare lstsq minus_infinity_request _ _ _
              ltac:(cbn; lia) Hp) as (_ & Hfin).
  rewrite Hfin by reflexivity. rewrite Hfit. cbn [bind].
  pose proof (positive_not_le _ Hpos) as Hv.
  unfold Code.finish, Code.after_fit.
  change (Code.last [f2; f4; B64.of_Z 6]) with (Returned (B64.of_Z 6)).
  cbn [bind fst snd].
  destruct i as [si|si| |si mi ei], v as [sv|sv| |sv mv ev];
    try discriminate Hpos; try destruct sv; try discriminate Hpos;
    try destruct si;
    first [ left; apply (code_conclude_infinity _ true); [exact Hv|reflexivity]
          | right; apply code_conclude_nan; [exact Hv|reflexivity] ].
Qed.

(** ** All sessions on one day *)




(** ** Negative hours *)

(** C6 (amended): a session with negative hours is not refused.  With
    three or more sessions whose dates parse, its hours are added into the
    running sums like any other ([y_k = y_(k-1) + hours_k] in float64, and
    [y_0 = hours_0]); if a sum is not finite the fit raises [ValueError],
    otherwise the solver is called on these sums and the handler goes on
    from its answer.  The response is never a client error. *)
Theorem negative_hours_reach_the_fit (lstsq : Code.solver)
  (data : Code.PredictionRequest) (dates : list datetime)
  (k : nat) (s : Code.StudySession) :
  (3 <= List.length (Code.sessions data))%nat ->
  comprehension (fun s => strptime (Code.date s)) (Code.sessions data)
  = Returned dates ->
  nth_error (Code.sessions data) k = Some s ->
  B64.ltb (Code.hours s) B64.zero = true ->
  exists start,
    let xs := List.map (fun d => sub_days d start) dates in
    let ys := Code.cumsum (List.map Code.hours (Code.sessions data)) in
    Code.prepare data = Returned (start, xs, ys)
    /\ nth_error ys k
       = Some (match k with
               | O => Code.hours s
               | S j => B64.add (nth j ys B64.zero) (Code.hours s)
               end)
    /\ (forallb B64.is_finite ys = false ->
        Code.predict_completion lstsq data = Raised ValueError)
    /\ (forallb B64.is_finite ys = true ->
        Code.predict_completion lstsq data
        = (model <- lstsq xs ys ;;
           Code.finish (start, xs, ys) model (Code.remaining_hours data)))
    /\ ~ Code.client_error (Code.post_predict lstsq data).
Proof.
  intros Hlen Hd Hk _.
  destruct (code_prepare_returns data dates
              (code_sessions_nonempty data Hlen) Hd) as (start & _ & Hp).
  exists start. intros xs ys. split; [exact Hp|]. split.
  - apply code_cumsum_nth. now apply map_nth_error.
  - destruct (code_predict_after_prepare lstsq data start xs ys Hlen Hp)
      as (Hinf & Hfin).
    split; [exact Hinf|]. split; [exact Hfin|].
    apply code_never_client_error.
Qed.

Lemma negative_hours_reach_the_fit_witness :
  exists start,
    let xs := List.map (fun d => sub_days d start)
                [mk_datetime 2024 1 1; mk_datetime 2024 1 2;
                 mk_datetime 2024 1 3] in
    let ys := Code.cumsum (List.map Code.hours
                             (Code.sessions code_negative_hours_request)) in
    Code.prepare code_negative_hours_request = Returned (start, xs, ys)
    /\ nth_error ys 1
       = Some (B64.add (nth 0 ys B64.zero) (B64.of_Z (-1)))
    /\ (forallb B64.is_finite ys = false ->
        Code.predict_completion dented_line code_negative_hours_request
        = Raised ValueError)
    /\ (forallb B64.is_finite ys = true ->
        Code.predict_completion dented_line code_negative_hours_request
        = (model <- dented_line xs ys ;;
           Code.finish (start, xs, ys) model
             (Code.remaining_hours code_negative_hours_request)))
    /\ ~ Code.client_error
           (Code.post_predict dented_line code_negative_hours_request).
Proof.
  apply (negative_hours_reach_the_fit dented_line code_negative_hours_request
           [mk_datetime 2024 1 1; mk_datetime 2024 1 2; mk_datetime 2024 1 3]
           1 (Code.mk_session "2024-01-02" (B64.of_Z (-1)))).
  - cbn. lia.
  - vm_compute. reflexivity.
  - reflexivity.
  - vm_compute. reflexivity.
Defined.

(** C6, as stated, fails.  Hours 5, -1 and 4: the request is not
    refused, the running sums 5, 4 and 8 are what every solver is called
    on, and with the line through these points the reply is 200 with a
    date. *)
Lemma negative_hours_counterexample :
  B64.ltb (B64.of_Z (-1)) B64.zero = true
  /\ In (Code.mk_session "2024-01-02" (B64.of_Z (-1)))
        (Code.sessions code_negative_hours_request)
  /\ Code.prepare code_negative_hours_request
     = Returned (mk_datetime 2024 1 1, [0; 1; 2],
                 [B64.of_Z 5; f4; B64.of_Z 8])
  /\ (forall lstsq,
         Code.predict_completion lstsq code_negative_hours_request
         = (model <- lstsq [0; 1; 2] [B64.of_Z 5; f4; B64.of_Z 8] ;;
            Code.finish (mk_datetime 2024 1 1, [0; 1; 2],
                         [B64.of_Z 5; f4; B64.of_Z 8]) model f2)
         /\ ~ Code.client_error
                (Code.post_predict lstsq code_negative_hours_request))
  /\ Code.post_predict dented_line code_negative_hours_request
     = Code.Http 200 (Code.success "2024-01-04" (B64.of_ratio 3 2)).
Proof.
  split; [reflexivity|]. split; [cbn; tauto|].
  split; [vm_compute; reflexivity|]. split; [|vm_compute; reflexivity].
  intros lstsq. split; [|apply code_never_client_error].
  apply (code_predict_after_prepare lstsq code_negative_hours_request
           (mk_datetime 2024 1 1) [0; 1; 2] [B64.of_Z 5; f4; B64.of_Z 8]);
    [cbn; lia|vm_compute; reflexivity|vm_compute; reflexivity].
Qed.

(** ** When the handler raises *)

Lemma comprehension_raised {A B : Type} (f : A -> Result B) (l : list A) e :
  comprehension f l = Raised e -> exists a, In a l /\ f a = Raised e.
Proof.
  induction l as [|a l IH]; cbn; [discriminate|].
  destruct (f a) as [b|e'] eqn:E; cbn.
  - destruct (comprehension f l) as [bs|e'] eqn:E'; cbn; [discriminate|].
    intros H. injection H as ->. destruct (IH eq_refl) as (x & Hx & Hfx).
    exists x. split; [now right|assumption].
  - intros H. injection H as ->. exists a. split; [now left|assumption].
Qed.

Lemma code_prepare_raises (data : Code.PredictionRequest) (e : Exn) :
  Code.sessions data <> [] ->
  Code.prepare data = Raised e ->
  e = ValueError
  /\ exists s, In s (Code.sessions data)
               /\ strptime (Code.date s) = Raised ValueError.
Proof.
  intros Hne H. unfold Code.prepare in H.
  destruct (comprehension _ (Code.sessions data)) as [dates|e'] eqn:Hd.
  - destruct (code_prepare_returns data dates Hne Hd) as (start & Hm & _).
    cbn [bind] in H. rewrite Hm in H. discriminate.
  - cbn [bind] in H. injection H as ->.
    destruct (comprehension_raised _ _ _ Hd) as (s & Hs & Hr).
    destruct (strptime_cases (Code.date s)) as [Hv|[d Hv]];
      rewrite Hv in Hr; [|discriminate].
    injection Hr as <-. split; [reflexivity|]. exists s. now split.
Qed.

Lemma code_conclude_raises (l : Code.Locals) (e : Exn) :
  valid_date (Code.start_date l) ->
  Code.conclude l = Raised e ->
  B64.leb (Code.velocity l) B64.zero = false
  /\ ((e = ValueError /\ Code.days_needed l = S754_nan)
      \/ (e = OverflowError
          /\ exists s, Code.days_needed l = S754_infinity s)
      \/ (e = OverflowError
          /\ exists n,
               B64.int (Code.days_needed l) = Returned n
               /\ ~ representable (toordinal (Code.start_date l) + n))).
Proof.
  intros Hs H.
  destruct (B64.leb (Code.velocity l) B64.zero) eqn:Hv.
  { unfold Code.conclude in H. rewrite Hv in H. discriminate. }
  split; [reflexivity|].
  destruct (B64.is_finite (Code.days_needed l)) eqn:Hf.
  - right; right.
    split; [|exists (int (B64.value (Code.days_needed l)));
             split; [now apply int_of_finite|]].
    + destruct (Z.le_gt_cases 1 (toordinal (Code.start_date l)
                                 + int (B64.value (Code.days_needed l))));
        destruct (Z.le_gt_cases (toordinal (Code.start_date l)
                                 + int (B64.value (Code.days_needed l)))
                    _MAXORDINAL);
        try (rewrite (code_conclude_in_range l Hs Hv Hf) in H;
             [discriminate|split; assumption]);
        (rewrite (code_conclude_out_of_range l Hv Hf) in H;
         [congruence|unfold representable; lia]).
    + intros Hr. rewrite (code_conclude_in_range l Hs Hv Hf Hr) in H.
      discriminate.
  - destruct (Code.days_needed l) as [s|s| |s m x] eqn:Hd; try discriminate.
    + right; left. rewrite (code_conclude_infinity l s Hv Hd) in H.
      split; [congruence|]. now exists s.
    + left. rewrite (code_conclude_nan l Hv Hd) in H.
      split; [congruence|reflexivity].
Qed.

(** Every exception that leaves the handler, and where it comes from.  The
    request has three or more sessions, and either a date does not parse
    ([ValueError] of [strptime]), or a running sum of the hours is not
    finite ([ValueError] of [fit]), or the solver inside [fit] raised, or
    the velocity has passed the test and the day count is NaN
    ([ValueError] of [int]), infinite ([OverflowError] of [int]) or leads
    out of the calendar ([OverflowError] of [timedelta] or of the
    addition).  [min] and [cumulative_hours[-1]] never raise. *)
Theorem handler_exceptions (lstsq : Code.solver)
  (data : Code.PredictionRequest) (e : Exn) :
  Code.predict_completion lstsq data = Raised e ->
  (3 <= List.length (Code.sessions data))%nat
  /\ ((e = ValueError
       /\ exists s, In s (Code.sessions data)
                    /\ strptime (Code.date s) = Raised ValueError)
      \/ exists start xs ys,
           Code.prepare data = Returned (start, xs, ys)
           /\ ((e = ValueError /\ forallb B64.is_finite ys = false)
               \/ (forallb B64.is_finite ys = true /\ lstsq xs ys = Raised e)
               \/ exists l,
                    Code.locals lstsq data = Returned l
                    /\ B64.leb (Code.velocity l) B64.zero = false
                    /\ ((e = ValueError /\ Code.days_needed l = S754_nan)
                        \/ (e = OverflowError
                            /\ exists s,
                                 Code.days_needed l = S754_infinity s)
                        \/ (e = OverflowError
                            /\ exists n,
                                 B64.int (Code.days_needed l) = Returned n
                                 /\ ~ representable
                                        (toordinal (Code.start_date l)
                                         + n))))).
Proof.
  intros H. rewrite code_predict_locals in H.
  destruct (Nat.ltb_spec (List.length (Code.sessions data)) 3) as [|Hlen];
    [discriminate|].
  split; [exact Hlen|].
  pose proof (code_sessions_nonempty data Hlen) as Hne.
  destruct (Code.prepare data) as [[[start xs] ys]|e'] eqn:Hp.
  2: { left. apply (code_prepare_raises data e Hne).
       unfold Code.locals in H. rewrite Hp in H. cbn [bind] in H.
       rewrite Hp. congruence. }
  right. exists start, xs, ys. split; [reflexivity|].
  destruct (Code.locals lstsq data) as [l|e'] eqn:Hl; cbn [bind] in H.
  - right; right. exists l. split; [reflexivity|].
    destruct (code_locals_inv lstsq _ _ Hl) as (Hp' & _).
    apply code_conclude_raises; [|exact H].
    eapply code_start_valid; eauto.
  - injection H as ->. unfold Code.locals in Hl. rewrite Hp in Hl.
    cbn [bind fst snd] in Hl. unfold Code.fit in Hl.
    destruct (forallb B64.is_finite ys) eqn:Hf.
    + right; left. split; [reflexivity|].
      destruct (lstsq xs ys) as [m|e'] eqn:Hfit;
        [|cbn [bind] in Hl; congruence].
      cbn [bind] in Hl. unfold Code.after_fit in Hl.
      destruct (code_prepare_inv _ _ _ _ Hp) as (_ & _ & _ & _ & Hys).
      destruct (code_last_returns ys) as [total Ht].
      { rewrite Hys. apply code_cumsum_nonempty. intros E.
        apply map_eq_nil in E. contradiction. }
      rewrite Ht in Hl. discriminate.
    + left. cbn [bind] in Hl. split; [congruence|reflexivity].
Qed.

Lemma handler_exceptions_witness :
  (3 <= List.length (Code.sessions late_request))%nat
  /\ ((OverflowError = ValueError
       /\ exists s, In s (Code.sessions late_request)
                    /\ strptime (Code.date s) = Raised ValueError)
      \/ exists start xs ys,
           Code.prepare late_request = Returned (start, xs, ys)
           /\ ((OverflowError = ValueError
                /\ forallb B64.is_finite ys = false)
               \/ (forallb B64.is_finite ys = true
                   /\ two_two xs ys = Raised OverflowError)
               \/ exists l,
                    Code.locals two_two late_request = Returned l
                    /\ B64.leb (Code.velocity l) B64.zero = false
                    /\ ((OverflowError = ValueError
                         /\ Code.days_needed l = S754_nan)
                        \/ (OverflowError = OverflowError
                            /\ exists s,
                                 Code.days_needed l = S754_infinity s)
                        \/ (OverflowError = OverflowError
                            /\ exists n,
                                 B64.int (Code.days_needed l) = Returned n
                                 /\ ~ representable
                                        (toordinal (Code.start_date l)
                                         + n))))).
Proof.
  apply (handler_exceptions two_two late_request OverflowError).
  vm_compute. reflexivity.
Defined.

(** ** The worked example *)

(** On the sessions of 2, 2 and 2 hours from 2024-01-01 on, days and
    running sums are [0, 1, 2] and [2, 4, 6] whatever the solver.  The
    answer is 2024-01-05 with velocity 2.0 when the solver answers the line
    [2 x + 2], and also when slope and intercept are one unit in the last
    place off, as [1.9999999999999996] and [2.0000000000000004]: the day
    count is then [4.000000000000001]. *)
Lemma worked_example_answer :
  Code.prepare code_example
  = Returned (mk_datetime 2024 1 1, [0; 1; 2], [f2; f4; B64.of_Z 6])
  /\ Code.predict_completion two_two code_example
     = Returned (Code.success "2024-01-05" f2)
  /\ Code.predict_completion near_two_two code_example
     = Returned (Code.success "2024-01-05" f2).
Proof. vm_compute. repeat split. Qed.

(** ** The order of the sessions *)



(** ** The written date, read again *)

Lemma no_year_of_short (y : Z) (s : string) :
  0 <= y < 1000 ->
  match_classes [is_digit; is_digit; is_digit; is_digit] 0
    (decimal y ++ "-" ++ s)%string
  = None.
Proof.
  intros H. unfold decimal.
  assert (B0 : 0 <= y mod 10 < 10) by (apply Z.mod_pos_bound; lia).
  assert (B1 : 0 <= (y / 10) mod 10 < 10) by (apply Z.mod_pos_bound; lia).
  assert (B2 : 0 <= (y / 10 / 10) mod 10 < 10) by (apply Z.mod_pos_bound; lia).
  destruct (digit_char _ B0) as [D0 _]. destruct (digit_char _ B1) as [D1 _].
  destruct (digit_char _ B2) as [D2 _].
  destruct (Z.ltb_spec y 10);
    [|destruct (Z.ltb_spec y 100); [|destruct (Z.ltb_spec y 1000); [|lia]]];
    cbn [pad append match_classes]; rewrite ?D2, ?D1, ?D0; reflexivity.
Qed.

(** [strptime] reads back what [strftime] writes for the years that have
    four digits, and refuses what it writes for the others. *)
Lemma strptime_strftime (d : datetime) :
  valid_date d ->
  (1000 <= year d -> strptime (strftime d) = Returned d)
  /\ (year d < 1000 -> strptime (strftime d) = Raised ValueError).
Proof.
  destruct d as [y m dd]. unfold valid_date, MINYEAR, MAXYEAR.
  cbn [year month day]. intros (Hy & Hm & Hd).
  pose proof (days_in_month_le_31 y m Hm) as H31.
  unfold strptime, strftime. cbn [year month day]. split; intros Hk.
  - unfold decimal.
    destruct (Z.ltb_spec y 10); [lia|]. destruct (Z.ltb_spec y 100); [lia|].
    destruct (Z.ltb_spec y 1000); [lia|].
    destruct (regex_strftime y m dd) as [rest ->]; try lia.
    unfold new_datetime, MINYEAR, MAXYEAR.
    destruct (Z.leb_spec 1 y); [|lia]. destruct (Z.leb_spec y 9999); [|lia].
    destruct (Z.leb_spec 1 m); [|lia]. destruct (Z.leb_spec m 12); [|lia].
    destruct (Z.leb_spec 1 dd); [|lia].
    destruct (Z.leb_spec dd (_days_in_month y m)); [|lia].
    reflexivity.
  - unfold regex_matches, match_group, re_Y. cbn [flat_map].
    rewrite no_year_of_short by lia. reflexivity.
Qed.

(** The [predicted_date] of a success answer is the date that lies the
    truncated number of days from the start date, written with [%Y-%m-%d].
    The handler's own date format reads it back when its year has four
    digits; for a year below 1000 the string has a shorter year and
    [strptime] refuses it. *)
Theorem predicted_date_parses_back (lstsq : Code.solver)
  (data : Code.PredictionRequest) (d : string) (v : B64.float) :
  Code.predict_completion lstsq data = Returned (Code.success d v) ->
  exists l finish n,
    Code.locals lstsq data = Returned l
    /\ B64.int (Code.days_needed l) = Returned n
    /\ valid_date finish
    /\ sub_days finish (Code.start_date l) = n
    /\ d = strftime finish
    /\ (1000 <= year finish ->
        strptime d = Returned finish /\ String.length d = 10%nat)
    /\ (year finish < 1000 -> strptime d = Raised ValueError).
Proof.
  intros H.
  destruct (code_success_inv _ _ _ _ H) as (l & _ & Hl & _ & Hf & Hr & -> & _).
  exists l. eexists. exists (int (B64.value (Code.days_needed l))).
  split; [exact Hl|]. split; [now apply int_of_finite|].
  pose proof (fromordinal_valid _ Hr) as Hv.
  destruct (strptime_strftime _ Hv) as (Hlong & Hshort).
  split; [exact Hv|]. split.
  { unfold sub_days. rewrite toordinal_fromordinal; [lia|apply Hr]. }
  split; [reflexivity|]. split; [|exact Hshort].
  intros Hk. split; [now apply Hlong|].
  unfold strftime, decimal.
  destruct (Z.ltb_spec (year (fromordinal
              (toordinal (Code.start_date l)
               + int (B64.value (Code.days_needed l))))) 10); [lia|].
  destruct (Z.ltb_spec (year (fromordinal
              (toordinal (Code.start_date l)
               + int (B64.value (Code.days_needed l))))) 100); [lia|].
  destruct (Z.ltb_spec (year (fromordinal
              (toordinal (Code.start_date l)
               + int (B64.value (Code.days_needed l))))) 1000); [lia|].
  cbn [pad append]. reflexivity.
Qed.

Lemma predicted_date_parses_back_witness :
  exists l finish n,
    Code.locals two_two code_example = Returned l
    /\ B64.int (Code.days_needed l) = Returned n
    /\ valid_date finish
    /\ sub_days finish (Code.start_date l) = n
    /\ "2024-01-05"%string = strftime finish
    /\ (1000 <= year finish ->
        strptime "2024-01-05" = Returned finish
        /\ String.length "2024-01-05" = 10%nat)
    /\ (year finish < 1000 -> strptime "2024-01-05" = Raised ValueError).
Proof.
  apply (predicted_date_parses_back two_two code_example "2024-01-05" f2).
  vm_compute. reflexivity.
Defined.

(** A date string that the handler accepts denotes a day that exists (a
    year from 1 to 9999, a month from 1 to 12, a day of that month, with 29
    February in leap years only).  Written again with [%Y-%m-%d] it parses
    to the same date when the year has four digits, so that [2024-3-9] and
    [2024-03-09] denote one date; a year below 1000 is written without
    leading zeros and is refused. *)
Theorem accepted_date_is_real (s : string) (d : datetime) :
  strptime s = Returned d ->
  1 <= year d <= 9999
  /\ 1 <= month d <= 12
  /\ 1 <= day d <= _days_in_month (year d) (month d)
  /\ 1 <= toordinal d <= 3652059
  /\ (1000 <= year d -> strptime (strftime d) = Returned d)
  /\ (year d < 1000 -> strptime (strftime d) = Raised ValueError).
Proof.
  intros H. pose proof (strptime_valid _ _ H) as Hv.
  pose proof (toordinal_bounds _ Hv) as Hb.
  destruct (strptime_strftime _ Hv) as (Hlong & Hshort).
  destruct Hv as (Hy & Hm & Hd).
  split; [exact Hy|]. split; [exact Hm|]. split; [exact Hd|].
  split; [exact Hb|]. split; assumption.
Qed.

Lemma accepted_date_is_real_witness :
  1 <= year (mk_datetime 999 3 9) <= 9999
  /\ 1 <= month (mk_datetime 999 3 9) <= 12
  /\ 1 <= day (mk_datetime 999 3 9)
     <= _days_in_month (year (mk_datetime 999 3 9))
          (month (mk_datetime 999 3 9))
  /\ 1 <= toordinal (mk_datetime 999 3 9) <= 3652059
  /\ (1000 <= year (mk_datetime 999 3 9) ->
      strptime (strftime (mk_datetime 999 3 9))
      = Returned (mk_datetime 999 3 9))
  /\ (year (mk_datetime 999 3 9) < 1000 ->
      strptime (strftime (mk_datetime 999 3 9)) = Raised ValueError).
Proof.
  apply (accepted_date_is_real "0999-3-9" (mk_datetime 999 3 9)).
  reflexivity.
Defined.
